(** * NRI validation policy: restrictions engine, policy engine, configuration

    A shallow embedding of [pkg/api/restrictions.go], of the policy-based
    validator ([PolicyBasedValidator]) and of the configuration loader and
    validator ([LoadConfigFromDir], [ValidateConfig]).

    Conventions.
    - A Go [string] is a Rocq [string]: a sequence of bytes.
    - A Go [error] is [option error] with [None] for [nil]; an error value is
      its message, built as [fmt.Errorf] builds it.
    - A pointer that may be nil is an [option]; a slice is a [list] (the
      source only ever takes [len] of a slice or ranges over it, and both
      treat a nil slice as the empty one); a [map[string]string] is a
      [gmap string string]. *)

From Stdlib Require Import DecimalString.
From stdpp Require Import base gmap strings list.

Local Open Scope string_scope.

Abbreviation substring := String.substring (only parsing).
Abbreviation strlen := String.length (only parsing).

(** ** The functions of Go's [strings] package that the source calls *)

Module GoStrings.

(** [strings.HasPrefix(s, prefix)]:
    [len(s) >= len(prefix) && s[:len(prefix)] == prefix]. *)
Definition HasPrefix (s prefix : string) : bool :=
  (strlen prefix <=? strlen s)%nat
  && String.eqb (substring 0 (strlen prefix) s) prefix.

(** [strings.HasSuffix(s, suffix)]:
    [len(s) >= len(suffix) && s[len(s)-len(suffix):] == suffix]. *)
Definition HasSuffix (s suffix : string) : bool :=
  (strlen suffix <=? strlen s)%nat
  && String.eqb
       (substring (strlen s - strlen suffix)
                  (strlen suffix) s)
       suffix.

(** [strings.TrimSuffix(s, suffix)]: [s] without the trailing [suffix], and
    [s] itself when it does not end with [suffix]. *)
Definition TrimSuffix (s suffix : string) : string :=
  if HasSuffix s suffix
  then substring 0 (strlen s - strlen suffix) s
  else s.

(** [strings.TrimPrefix(s, prefix)]: [s] without the leading [prefix], and
    [s] itself when it does not start with [prefix]. *)
Definition TrimPrefix (s prefix : string) : string :=
  if HasPrefix s prefix
  then substring (strlen prefix)
                 (strlen s - strlen prefix) s
  else s.

(** [strings.Contains(s, substr)]: [strings.Index(s, substr) >= 0]. *)
Definition Contains (s substr : string) : bool :=
  match String.index 0 substr s with
  | Some _ => true
  | None => false
  end.

End GoStrings.

(** [%d] of a non-negative [int] (the indices of a [range] loop). *)
Definition itoa (n : nat) : string :=
  NilEmpty.string_of_uint (Nat.to_uint n).

(** [slices.Contains(s, v)] on a slice of strings. *)
Definition slicesContains (s : list string) (v : string) : bool :=
  existsb (String.eqb v) s.

(** An error value is its message. *)
Definition error := string.

(** What a function declared [(T, error)] returns. *)
Inductive result (A : Type) : Type :=
| Ok (a : A)
| Err (e : error).
Arguments Ok {A} a.
Arguments Err {A} e.

(** The loop [for _, x := range l { if err := body(x); err != nil { return
    err } }]: the first error, or [nil] after the last element. *)
Fixpoint forEach {A : Type} (body : A -> option error) (l : list A)
  : option error :=
  match l with
  | [] => None
  | x :: rest =>
      match body x with
      | Some err => Some err
      | None => forEach body rest
      end
  end.

(** ** The request types of package [api]

    The generated declarations are not among the sources; the records carry
    the fields that the validators read and that the tests set. *)

Module Api.

Record Mount := { Destination : string; Source : string }.
Record KeyValue := { Key : string; KeyValue_Value : string }.
Record Hook := { Path : string; HookArgs : list string }.
Record Hooks := { Prestart : list Hook; Poststop : list Hook }.
Record POSIXRlimit := { Rlimit_Type : string; Hard : N; Soft : N }.
Record LinuxDevice := { Device_Path : string; Device_Type : string }.
Record LinuxMemory := { Limit : option Z; Swap : option Z }.
Record LinuxCPU := { Shares : option N; Cpus : string; Mems : string }.
Record OptionalString := { Value : string }.
Record LinuxNamespace := { Type_ : string; Namespace_Path : string }.
Record LinuxSeccomp := { DefaultAction_ : string }.

Definition GetValue (o : OptionalString) : string := Value o.

Record LinuxResources := {
  Memory : option LinuxMemory;
  Cpu : option LinuxCPU;
  BlockioClass : option OptionalString;
  RdtClass : option OptionalString;
  Unified : gmap string string
}.

(** Modelled from the spec: the field [SeccompPolicy] is the "corresponding
    seccomp field" of an adjustment that the specification speaks of, the
    seccomp policy that a plugin can set on a container.  No function of
    the sources reads it. *)
Record LinuxContainerAdjustment := {
  Devices : list LinuxDevice;
  Resources : option LinuxResources;
  Namespaces : list LinuxNamespace;
  SeccompPolicy : option LinuxSeccomp
}.

Record ContainerAdjustment := {
  Annotations : gmap string string;
  Mounts : list Mount;
  Args : list string;
  Env : list KeyValue;
  Hooks_ : option Hooks;
  Rlimits : list POSIXRlimit;
  Linux : option LinuxContainerAdjustment
}.

Record PodSandbox := {
  Name : string;
  Namespace : string;
  Labels : gmap string string
}.

Definition GetName (pod : PodSandbox) : string := Name pod.
Definition GetNamespace (pod : PodSandbox) : string := Namespace pod.
Definition GetLabels (pod : PodSandbox) : gmap string string := Labels pod.

Record PluginInstance := { Plugin_Name : string; Plugin_Index : string }.

Record ValidateContainerAdjustmentRequest := {
  Pod : option PodSandbox;
  Adjust : option ContainerAdjustment;
  Plugins : list PluginInstance
}.

Definition GetPod (req : ValidateContainerAdjustmentRequest)
  : option PodSandbox := Pod req.

(** One order in which [range req.GetPluginMap()] may visit the keys of
    the plugin map.  The map has two keys for each plugin of the request,
    its name and its index joined to its name by ["-"]; the keys come here
    each once, in the order in which the plugins enter the map. *)
Definition pluginNamesInOrder (req : ValidateContainerAdjustmentRequest)
  : list string :=
  List.nodup String.string_dec
    (flat_map (fun p => [Plugin_Name p;
                         Plugin_Index p +:+ "-" +:+ Plugin_Name p])
              (Plugins req)).

End Api.

(** ** Restrictions engine: [pkg/api/restrictions.go] *)

Module Restrictions.
Import GoStrings.

(** [RestrictionAction] defines whether a list is an allowlist or denylist. *)
Definition RestrictionAction := string.
Definition RestrictionAllow : RestrictionAction := "allow".
Definition RestrictionDeny : RestrictionAction := "deny".

(** [MutationCapability] represents different types of mutations plugins
    can make. *)
Definition MutationCapability := string.
Definition MutationAnnotations : MutationCapability := "annotations".
Definition MutationMounts : MutationCapability := "mounts".
Definition MutationArgs : MutationCapability := "args".
Definition MutationEnv : MutationCapability := "env".
Definition MutationHooks : MutationCapability := "hooks".
Definition MutationRlimits : MutationCapability := "rlimits".
Definition MutationDevices : MutationCapability := "devices".
Definition MutationResources : MutationCapability := "resources".
Definition MutationSeccomp : MutationCapability := "seccomp".
Definition MutationNamespaces : MutationCapability := "namespaces".
Definition MutationMemory : MutationCapability := "memory".
Definition MutationCPU : MutationCapability := "cpu".
Definition MutationBlockIO : MutationCapability := "blockio".
Definition MutationRDT : MutationCapability := "rdt".
Definition MutationUnified : MutationCapability := "unified".

Record PodSelector := {
  Namespaces : list string;
  Labels : gmap string string;
  Names : list string
}.

Record MutationRestriction := {
  Action : RestrictionAction;
  Capabilities : list MutationCapability
}.

Record PodRestriction := {
  PodRestriction_Action : RestrictionAction;
  Selector : PodSelector
}.

Record PluginRestriction := {
  PluginPattern : string;
  MutationRestrictions : list MutationRestriction;
  PodRestrictions : list PodRestriction
}.

Record RestrictionsConfig := {
  DefaultAction : RestrictionAction;
  GlobalRestrictions : list MutationRestriction;
  PluginRestrictions : list PluginRestriction;
  GlobalPodRestrictions : list PodRestriction
}.

Record RestrictionsValidator := { config : RestrictionsConfig }.

Definition NewRestrictionsValidator (config : RestrictionsConfig)
  : RestrictionsValidator := {| config := config |}.

(** [globMatch] performs simple glob pattern matching. *)
Definition globMatch (pattern str : string) : bool :=
  if String.eqb pattern "*" then true
  else if Contains pattern "*" then
    if HasSuffix pattern "*" then
      let prefix := TrimSuffix pattern "*" in
      HasPrefix str prefix
    else if HasPrefix pattern "*" then
      let suffix := TrimPrefix pattern "*" in
      HasSuffix str suffix
    else String.eqb pattern str
  else String.eqb pattern str.

(** [append(capabilities, c)] under the guard [cond]. *)
Definition appendIf (cond : bool) (c : MutationCapability)
    (capabilities : list MutationCapability) : list MutationCapability :=
  if cond then (capabilities ++ [c])%list else capabilities.

Definition nonEmpty {A : Type} (l : list A) : bool :=
  negb (length l =? 0)%nat.

Definition nonEmptyMap (m : gmap string string) : bool :=
  negb (size m =? 0)%nat.

Definition isSome {A : Type} (o : option A) : bool :=
  match o with Some _ => true | None => false end.

(** [extractMutationCapabilities] determines what capabilities are being
    used in an adjustment. *)
Definition extractMutationCapabilities (adjust : option Api.ContainerAdjustment)
  : list MutationCapability :=
  match adjust with
  | None => []
  | Some adjust =>
      let capabilities := [] in
      let capabilities :=
        appendIf (nonEmptyMap (Api.Annotations adjust))
                 MutationAnnotations capabilities in
      let capabilities :=
        appendIf (nonEmpty (Api.Mounts adjust)) MutationMounts capabilities in
      let capabilities :=
        appendIf (nonEmpty (Api.Args adjust)) MutationArgs capabilities in
      let capabilities :=
        appendIf (nonEmpty (Api.Env adjust)) MutationEnv capabilities in
      let capabilities :=
        appendIf (isSome (Api.Hooks_ adjust)) MutationHooks capabilities in
      let capabilities :=
        appendIf (nonEmpty (Api.Rlimits adjust)) MutationRlimits capabilities in
      match Api.Linux adjust with
      | None => capabilities
      | Some linux =>
          let capabilities :=
            appendIf (nonEmpty (Api.Devices linux))
                     MutationDevices capabilities in
          let capabilities :=
            match Api.Resources linux with
            | None => capabilities
            | Some resources =>
                let capabilities := (capabilities ++ [MutationResources])%list in
                let capabilities :=
                  appendIf (isSome (Api.Memory resources))
                           MutationMemory capabilities in
                let capabilities :=
                  appendIf (isSome (Api.Cpu resources))
                           MutationCPU capabilities in
                let capabilities :=
                  appendIf
                    (match Api.BlockioClass resources with
                     | Some c => negb (String.eqb (Api.GetValue c) "")
                     | None => false
                     end)
                    MutationBlockIO capabilities in
                let capabilities :=
                  appendIf
                    (match Api.RdtClass resources with
                     | Some c => negb (String.eqb (Api.GetValue c) "")
                     | None => false
                     end)
                    MutationRDT capabilities in
                appendIf (nonEmptyMap (Api.Unified resources))
                         MutationUnified capabilities
            end in
          appendIf (nonEmpty (Api.Namespaces linux))
                   MutationNamespaces capabilities
      end
  end.

(** [checkMutationRestriction] checks if mutations are allowed by a
    restriction. *)
Definition checkMutationRestriction (restriction : MutationRestriction)
    (capabilities : list MutationCapability) : option error :=
  if String.eqb (Action restriction) RestrictionAllow then
    forEach
      (fun cap =>
         if negb (slicesContains (Capabilities restriction) cap)
         then Some ("mutation capability " +:+ cap +:+ " not in allowlist")
         else None)
      capabilities
  else if String.eqb (Action restriction) RestrictionDeny then
    forEach
      (fun cap =>
         if slicesContains (Capabilities restriction) cap
         then Some ("mutation capability " +:+ cap +:+ " is denied")
         else None)
      capabilities
  else None.

(** [podMatches] checks if a pod matches a selector. *)
Definition podMatches (selector : PodSelector) (pod : Api.PodSandbox) : bool :=
  (if (0 <? length (Namespaces selector))%nat
   then existsb (fun nsPattern => globMatch nsPattern (Api.GetNamespace pod))
                (Namespaces selector)
   else true)
  && (if (0 <? size (Labels selector))%nat
      then
        let podLabels := Api.GetLabels pod in
        forallb (fun kv => bool_decide (podLabels !! kv.1 = Some kv.2))
                (map_to_list (Labels selector))
      else true)
  && (if (0 <? length (Names selector))%nat
      then existsb (fun namePattern => globMatch namePattern (Api.GetName pod))
                   (Names selector)
      else true).

(** [checkPodRestriction] checks if pod access is allowed by a restriction. *)
Definition checkPodRestriction (restriction : PodRestriction)
    (pod : Api.PodSandbox) : option error :=
  let matches := podMatches (Selector restriction) pod in
  if String.eqb (PodRestriction_Action restriction) RestrictionAllow then
    if negb matches then Some "pod not in allowlist" else None
  else if String.eqb (PodRestriction_Action restriction) RestrictionDeny then
    if matches then Some "pod is in denylist" else None
  else None.

(** [findPluginRestrictions] finds all restrictions that apply to a plugin. *)
Definition findPluginRestrictions (rv : RestrictionsValidator)
    (pluginName : string) : list PluginRestriction :=
  List.filter (fun restriction => globMatch (PluginPattern restriction) pluginName)
              (PluginRestrictions (config rv)).

(** [validatePluginMutations] validates that a plugin's mutations are
    allowed. *)
Definition validatePluginMutations (rv : RestrictionsValidator)
    (pluginName : string) (req : Api.ValidateContainerAdjustmentRequest)
  : option error :=
  let capabilities := extractMutationCapabilities (Api.Adjust req) in
  match forEach (fun restriction =>
                   checkMutationRestriction restriction capabilities)
                (GlobalRestrictions (config rv)) with
  | Some err => Some err
  | None =>
      let pluginRestrictions := findPluginRestrictions rv pluginName in
      forEach
        (fun pluginRestriction =>
           forEach (fun mutationRestriction =>
                      checkMutationRestriction mutationRestriction capabilities)
                   (MutationRestrictions pluginRestriction))
        pluginRestrictions
  end.

(** [validatePodAccess] validates that a plugin can access the specified
    pod. *)
Definition validatePodAccess (rv : RestrictionsValidator)
    (pluginName : string) (pod : Api.PodSandbox) : option error :=
  match forEach (fun restriction => checkPodRestriction restriction pod)
                (GlobalPodRestrictions (config rv)) with
  | Some err => Some err
  | None =>
      let pluginRestrictions := findPluginRestrictions rv pluginName in
      forEach
        (fun pluginRestriction =>
           forEach (fun podRestriction =>
                      checkPodRestriction podRestriction pod)
                   (PodRestrictions pluginRestriction))
        pluginRestrictions
  end.

Section RangeOverPluginMap.

(** [req.GetPluginMap()] is not among the sources, and Go leaves the order
    of a [range] over a map unspecified: [pluginNames req] stands for the
    keys of that map in the order one run of the loop visits them. *)
Variable pluginNames : Api.ValidateContainerAdjustmentRequest -> list string.

(** [ValidateContainerAdjustment] validates a container adjustment against
    restrictions. *)
Definition ValidateContainerAdjustment (rv : RestrictionsValidator)
    (req : Api.ValidateContainerAdjustmentRequest) : option error :=
  match Api.GetPod req with
  | None => Some "pod information is required for restrictions validation"
  | Some pod =>
      let plugins := pluginNames req in
      forEach
        (fun pluginName =>
           match validatePluginMutations rv pluginName req with
           | Some err =>
               Some ("plugin " +:+ pluginName +:+ " restricted: " +:+ err)
           | None =>
               match validatePodAccess rv pluginName pod with
               | Some err =>
                   Some ("plugin " +:+ pluginName
                         +:+ " denied pod access: " +:+ err)
               | None => None
               end
           end)
        plugins
  end.

End RangeOverPluginMap.

End Restrictions.

(** ** Policy engine: [PolicyBasedValidator] *)

Module Policy.
Import GoStrings.

Record PolicySubject := { Kind : string; Name : string }.

(** [PolicyRule] represents a single rule in the validation policy. *)
Record PolicyRule := {
  Namespaces : list string;
  Plugins : list string;
  Subjects : list PolicySubject
}.

Record NRIValidationPolicySpec := {
  DefaultDeny : bool;
  Rules : list PolicyRule
}.

(** [ValidationContext] provides context for policy validation. *)
Record ValidationContext := {
  Subject : option PolicySubject;
  PodNamespace : string;
  PodName : string;
  PluginName : string
}.

(** [validationCtx.PluginName = pluginName]. *)
Definition setPluginName (ctx : ValidationContext) (pluginName : string)
  : ValidationContext :=
  {| Subject := Subject ctx;
     PodNamespace := PodNamespace ctx;
     PodName := PodName ctx;
     PluginName := pluginName |}.

Record PolicyBasedValidator := {
  policy : NRIValidationPolicySpec;
  restrictionsValidator : option Restrictions.RestrictionsValidator
}.

Definition NewPolicyBasedValidator (policy : NRIValidationPolicySpec)
    (restrictionsConfig : option Restrictions.RestrictionsConfig)
  : PolicyBasedValidator :=
  {| policy := policy;
     restrictionsValidator :=
       match restrictionsConfig with
       | Some c => Some (Restrictions.NewRestrictionsValidator c)
       | None => None
       end |}.

(** [globMatch] performs glob pattern matching with support for the ["*"]
    wildcard; the body is the one of the restrictions engine. *)
Definition globMatch (pattern str : string) : bool :=
  if String.eqb pattern "*" then true
  else if Contains pattern "*" then
    if HasSuffix pattern "*" then
      let prefix := TrimSuffix pattern "*" in
      HasPrefix str prefix
    else if HasPrefix pattern "*" then
      let suffix := TrimPrefix pattern "*" in
      HasSuffix str suffix
    else String.eqb pattern str
  else String.eqb pattern str.

(** [namespaceMatches] checks if namespace matches any pattern in the
    list. *)
Definition namespaceMatches (namespace : string) (patterns : list string)
  : bool :=
  existsb (fun pattern => globMatch pattern namespace) patterns.

(** [pluginAllowed] checks if a plugin is in the allowed plugins list. *)
Definition pluginAllowed (pluginName : string) (allowedPlugins : list string)
  : bool :=
  existsb (fun allowed => globMatch allowed pluginName) allowedPlugins.

(** [subjectAllowed] checks if a subject is in the allowed subjects list. *)
Definition subjectAllowed (subject : option PolicySubject)
    (allowedSubjects : list PolicySubject) : bool :=
  match subject with
  | None => false
  | Some subject =>
      existsb (fun allowed =>
                 String.eqb (Kind subject) (Kind allowed)
                 && String.eqb (Name subject) (Name allowed))
              allowedSubjects
  end.

(** [findMatchingRules] finds policy rules that match the given
    namespace. *)
Definition findMatchingRules (pv : PolicyBasedValidator) (namespace : string)
  : list PolicyRule :=
  List.filter (fun rule => namespaceMatches namespace (Namespaces rule))
              (Rules (policy pv)).

(** [validatePluginAccess] checks if a plugin is allowed to operate in the
    given context. *)
Definition validatePluginAccess (pv : PolicyBasedValidator)
    (ctx : ValidationContext) : option error :=
  let matchingRules := findMatchingRules pv (PodNamespace ctx) in
  if (length matchingRules =? 0)%nat then
    if DefaultDeny (policy pv)
    then Some "access denied: no matching rules found and defaultDeny is true"
    else None
  else if existsb (fun rule =>
                     pluginAllowed (PluginName ctx) (Plugins rule)
                     && subjectAllowed (Subject ctx) (Subjects rule))
                  matchingRules
  then None
  else if DefaultDeny (policy pv)
  then Some "access denied: no rule allows this subject/plugin combination"
  else None.

Section RangeOverPluginMap.

(** The keys of [req.GetPluginMap()] in the order the [range] loop visits
    them, as in the restrictions engine. *)
Variable pluginNames : Api.ValidateContainerAdjustmentRequest -> list string.

(** The loop over the plugins: each iteration stores the plugin name in the
    context before the access check. *)
Fixpoint validatePlugins (pv : PolicyBasedValidator)
    (validationCtx : ValidationContext) (plugins : list string)
  : option error :=
  match plugins with
  | [] => None
  | pluginName :: rest =>
      let validationCtx := setPluginName validationCtx pluginName in
      match validatePluginAccess pv validationCtx with
      | Some err =>
          Some ("policy validation failed for plugin " +:+ pluginName
                +:+ ": " +:+ err)
      | None => validatePlugins pv validationCtx rest
      end
  end.

(** [ValidateContainerAdjustment] validates a container adjustment against
    the policy. *)
Definition ValidateContainerAdjustment (pv : PolicyBasedValidator)
    (req : Api.ValidateContainerAdjustmentRequest)
    (validationCtx : option ValidationContext) : option error :=
  match Api.GetPod req with
  | None => Some "pod information is required for policy validation"
  | Some pod =>
      let validationCtx :=
        match validationCtx with
        | Some c => c
        | None =>
            {| Subject := None;
               PodNamespace := Api.GetNamespace pod;
               PodName := Api.GetName pod;
               PluginName := "" |}
        end in
      match
        match restrictionsValidator pv with
        | Some rv =>
            Restrictions.ValidateContainerAdjustment pluginNames rv req
        | None => None
        end
      with
      | Some err => Some ("restrictions validation failed: " +:+ err)
      | None => validatePlugins pv validationCtx (pluginNames req)
      end
  end.

End RangeOverPluginMap.

End Policy.

(** ** Configuration loader and validator *)

Module Config.

(** [ValidationConfig] holds the complete validation configuration.  The
    values of [DefaultValidatorConfig] are opaque to this package. *)
Record ValidationConfig := {
  Policy : option Policy.NRIValidationPolicySpec;
  Restrictions : option Restrictions.RestrictionsConfig;
  EnableDefaultValidator : bool;
  DefaultValidatorConfig : option (gmap string string)
}.

(** The zero value of [var mergedConfig ValidationConfig]. *)
Definition zeroConfig : ValidationConfig :=
  {| Policy := None;
     Restrictions := None;
     EnableDefaultValidator := false;
     DefaultValidatorConfig := None |}.

(** One iteration of the merge loop of [LoadConfigFromDir]: "simple merge
    strategy - last file wins for conflicts". *)
Definition mergeInto (mergedConfig config : ValidationConfig)
  : ValidationConfig :=
  {| Policy :=
       match Policy config with
       | Some p => Some p
       | None => Policy mergedConfig
       end;
     Restrictions :=
       match Restrictions config with
       | Some r => Some r
       | None => Restrictions mergedConfig
       end;
     EnableDefaultValidator :=
       if EnableDefaultValidator config
       then EnableDefaultValidator config
       else EnableDefaultValidator mergedConfig;
     DefaultValidatorConfig :=
       match DefaultValidatorConfig config with
       | Some c => Some c
       | None => DefaultValidatorConfig mergedConfig
       end |}.

Section FileSystem.

(** The world outside the package: [os.ReadFile], [yaml.Unmarshal] into a
    zero [ValidationConfig], [filepath.Glob] and [filepath.Join]. *)
Variable ReadFile : string -> result string.
Variable Unmarshal : string -> result ValidationConfig.
Variable Glob : string -> result (list string).
Variable Join : string -> string -> string.

(** [LoadConfigFromFile] loads validation configuration from a YAML file. *)
Definition LoadConfigFromFile (path : string) : result ValidationConfig :=
  match ReadFile path with
  | Err err =>
      Err ("failed to read config file " +:+ path +:+ ": " +:+ err)
  | Ok data =>
      match Unmarshal data with
      | Err err =>
          Err ("failed to parse config file " +:+ path +:+ ": " +:+ err)
      | Ok config => Ok config
      end
  end.

(** The merge loop of [LoadConfigFromDir] over the files still to load. *)
Fixpoint mergeFiles (files : list string) (mergedConfig : ValidationConfig)
  : result ValidationConfig :=
  match files with
  | [] => Ok mergedConfig
  | file :: rest =>
      match LoadConfigFromFile file with
      | Err err =>
          Err ("failed to load config from " +:+ file +:+ ": " +:+ err)
      | Ok config => mergeFiles rest (mergeInto mergedConfig config)
      end
  end.

(** [LoadConfigFromDir] loads multiple config files from a directory. *)
Definition LoadConfigFromDir (dir : string) : result ValidationConfig :=
  match Glob (Join dir "*.yaml") with
  | Err err =>
      Err ("failed to list config files in " +:+ dir +:+ ": " +:+ err)
  | Ok files =>
      match
        (if (length files =? 0)%nat
         then
           match Glob (Join dir "*.yml") with
           | Err err =>
               Err ("failed to list config files in " +:+ dir
                    +:+ ": " +:+ err)
           | Ok files => Ok files
           end
         else Ok files)
      with
      | Err err => Err err
      | Ok files =>
          if (length files =? 0)%nat
          then Err ("no config files found in " +:+ dir)
          else mergeFiles files zeroConfig
      end
  end.

End FileSystem.

Definition validKinds : list string := ["User"; "Group"; "ServiceAccount"].

(** [%v] of [validKinds]. *)
Definition validKindsText : string := "[User Group ServiceAccount]".

(** The loop over [rule.Subjects] in [validatePolicy], from index [j]. *)
Fixpoint validateSubjects (i j : nat) (subjects : list Policy.PolicySubject)
  : option error :=
  match subjects with
  | [] => None
  | subject :: rest =>
      if String.eqb (Policy.Kind subject) "" then
        Some ("rule " +:+ itoa i +:+ ", subject " +:+ itoa j
              +:+ ": kind cannot be empty")
      else if String.eqb (Policy.Name subject) "" then
        Some ("rule " +:+ itoa i +:+ ", subject " +:+ itoa j
              +:+ ": name cannot be empty")
      else
        let found := existsb (String.eqb (Policy.Kind subject)) validKinds in
        if negb found then
          Some ("rule " +:+ itoa i +:+ ", subject " +:+ itoa j
                +:+ ": invalid kind " +:+ Policy.Kind subject
                +:+ ", must be one of: " +:+ validKindsText)
        else validateSubjects i (S j) rest
  end.

(** The loop over [policy.Rules] in [validatePolicy], from index [i]. *)
Fixpoint validateRules (i : nat) (rules : list Policy.PolicyRule)
  : option error :=
  match rules with
  | [] => None
  | rule :: rest =>
      if (length (Policy.Namespaces rule) =? 0)%nat then
        Some ("rule " +:+ itoa i +:+ ": namespaces cannot be empty")
      else if (length (Policy.Plugins rule) =? 0)%nat then
        Some ("rule " +:+ itoa i +:+ ": plugins cannot be empty")
      else if (length (Policy.Subjects rule) =? 0)%nat then
        Some ("rule " +:+ itoa i +:+ ": subjects cannot be empty")
      else
        match validateSubjects i 0 (Policy.Subjects rule) with
        | Some err => Some err
        | None => validateRules (S i) rest
        end
  end.

(** [validatePolicy] validates policy configuration. *)
Definition validatePolicy (policy : Policy.NRIValidationPolicySpec)
  : option error :=
  validateRules 0 (Policy.Rules policy).

Definition validCapabilities : list Restrictions.MutationCapability :=
  [ Restrictions.MutationAnnotations; Restrictions.MutationMounts;
    Restrictions.MutationArgs; Restrictions.MutationEnv;
    Restrictions.MutationHooks; Restrictions.MutationRlimits;
    Restrictions.MutationDevices; Restrictions.MutationResources;
    Restrictions.MutationSeccomp; Restrictions.MutationNamespaces;
    Restrictions.MutationMemory; Restrictions.MutationCPU;
    Restrictions.MutationBlockIO; Restrictions.MutationRDT;
    Restrictions.MutationUnified ].

(** [validateMutationRestriction] validates a single mutation
    restriction. *)
Definition validateMutationRestriction
    (restriction : Restrictions.MutationRestriction) : option error :=
  if negb (String.eqb (Restrictions.Action restriction)
                      Restrictions.RestrictionAllow)
     && negb (String.eqb (Restrictions.Action restriction)
                         Restrictions.RestrictionDeny)
  then Some "invalid action: must be 'allow' or 'deny'"
  else if (length (Restrictions.Capabilities restriction) =? 0)%nat
  then Some "capabilities cannot be empty"
  else
    forEach
      (fun cap =>
         let found := existsb (String.eqb cap) validCapabilities in
         if negb found then Some ("invalid capability: " +:+ cap) else None)
      (Restrictions.Capabilities restriction).

(** The loop [for i, x := range l] with an error-returning body. *)
Fixpoint forEachIndexed {A : Type} (body : nat -> A -> option error)
    (i : nat) (l : list A) : option error :=
  match l with
  | [] => None
  | x :: rest =>
      match body i x with
      | Some err => Some err
      | None => forEachIndexed body (S i) rest
      end
  end.

(** [validateRestrictions] validates restrictions configuration. *)
Definition validateRestrictions
    (restrictions : Restrictions.RestrictionsConfig) : option error :=
  if negb (String.eqb (Restrictions.DefaultAction restrictions) "")
     && (negb (String.eqb (Restrictions.DefaultAction restrictions)
                          Restrictions.RestrictionAllow)
         && negb (String.eqb (Restrictions.DefaultAction restrictions)
                             Restrictions.RestrictionDeny))
  then Some "invalid defaultAction: must be 'allow' or 'deny'"
  else
    match
      forEachIndexed
        (fun i restriction =>
           match validateMutationRestriction restriction with
           | Some err =>
               Some ("global restriction " +:+ itoa i +:+ ": " +:+ err)
           | None => None
           end)
        0 (Restrictions.GlobalRestrictions restrictions)
    with
    | Some err => Some err
    | None =>
        forEachIndexed
          (fun i pluginRestriction =>
             if String.eqb (Restrictions.PluginPattern pluginRestriction) ""
             then Some ("plugin restriction " +:+ itoa i
                        +:+ ": pluginPattern cannot be empty")
             else
               forEachIndexed
                 (fun j mutationRestriction =>
                    match validateMutationRestriction mutationRestriction with
                    | Some err =>
                        Some ("plugin restriction " +:+ itoa i
                              +:+ ", mutation restriction " +:+ itoa j
                              +:+ ": " +:+ err)
                    | None => None
                    end)
                 0 (Restrictions.MutationRestrictions pluginRestriction))
          0 (Restrictions.PluginRestrictions restrictions)
    end.

(** [ValidateConfig] validates the configuration for consistency. *)
Definition ValidateConfig (config : option ValidationConfig) : option error :=
  match config with
  | None => Some "config cannot be nil"
  | Some config =>
      match
        match Policy config with
        | Some policy =>
            match validatePolicy policy with
            | Some err => Some ("invalid policy: " +:+ err)
            | None => None
            end
        | None => None
        end
      with
      | Some err => Some err
      | None =>
          match Restrictions config with
          | Some restrictions =>
              match validateRestrictions restrictions with
              | Some err => Some ("invalid restrictions: " +:+ err)
              | None => None
              end
          | None => None
          end
      end
  end.

End Config.

(** ** Predicates in the words of the specification *)

Module Spec.

(** The pattern matcher as the specification words it: ["*"] matches
    everything, a pattern ending in ["*"] matches the values with its
    prefix, a pattern beginning with ["*"] the values with its suffix,
    anything else matches by equality. *)
Definition matchAsStated (pattern value : string) : Prop :=
  pattern = "*"
  \/ (exists pre t, pattern = pre +:+ "*" /\ value = pre +:+ t)
  \/ (exists suf t, pattern = "*" +:+ suf /\ value = t +:+ suf)
  \/ pattern = value.

(** The same, with the suffix clause kept for the patterns that do not end
    in ["*"]. *)
Definition matchPrefixFirst (pattern value : string) : Prop :=
  pattern = "*"
  \/ (exists pre t, pattern = pre +:+ "*" /\ value = pre +:+ t)
  \/ ((exists suf t, pattern = "*" +:+ suf /\ value = t +:+ suf)
      /\ ~ (exists pre, pattern = pre +:+ "*"))
  \/ pattern = value.

(** "The adjustment's corresponding seccomp field is non-nil". *)
Definition seccompFieldSet (adjust : option Api.ContainerAdjustment) : bool :=
  match adjust with
  | Some a =>
      match Api.Linux a with
      | Some linux =>
          match Api.SeccompPolicy linux with Some _ => true | None => false end
      | None => false
      end
  | None => false
  end.

(** An adjustment whose only non-empty content is the memory sub-field of
    the Linux resources block. *)
Definition onlyMemorySet (adjust : Api.ContainerAdjustment) : Prop :=
  Api.Annotations adjust = ∅
  /\ Api.Mounts adjust = []
  /\ Api.Args adjust = []
  /\ Api.Env adjust = []
  /\ Api.Hooks_ adjust = None
  /\ Api.Rlimits adjust = []
  /\ exists linux resources memory,
      Api.Linux adjust = Some linux
      /\ Api.Devices linux = []
      /\ Api.Namespaces linux = []
      /\ Api.Resources linux = Some resources
      /\ Api.Memory resources = Some memory
      /\ Api.Cpu resources = None
      /\ Api.BlockioClass resources = None
      /\ Api.RdtClass resources = None
      /\ Api.Unified resources = ∅.

(** A rule is selected when its namespace-pattern list contains a pattern
    matching the pod namespace. *)
Definition ruleMatchesNamespace (namespace : string) (rule : Policy.PolicyRule)
  : Prop :=
  exists pattern,
    pattern ∈ Policy.Namespaces rule
    /\ Policy.globMatch pattern namespace = true.

(** A rule grants access when its plugin-pattern list contains a pattern
    matching the plugin name and its subject list contains an entry with
    exactly the kind and the name of the context's subject. *)
Definition ruleGrants (ctx : Policy.ValidationContext)
    (rule : Policy.PolicyRule) : Prop :=
  (exists pattern,
      pattern ∈ Policy.Plugins rule
      /\ Policy.globMatch pattern (Policy.PluginName ctx) = true)
  /\ exists subject allowed,
      Policy.Subject ctx = Some subject
      /\ allowed ∈ Policy.Subjects rule
      /\ Policy.Kind subject = Policy.Kind allowed
      /\ Policy.Name subject = Policy.Name allowed.

(** Two restrictions configurations that agree on every field but
    [DefaultAction]. *)
Definition sameButDefaultAction (c1 c2 : Restrictions.RestrictionsConfig)
  : Prop :=
  Restrictions.GlobalRestrictions c1 = Restrictions.GlobalRestrictions c2
  /\ Restrictions.PluginRestrictions c1 = Restrictions.PluginRestrictions c2
  /\ Restrictions.GlobalPodRestrictions c1
     = Restrictions.GlobalPodRestrictions c2.

(** Structural validity of a subject and of a rule. *)
Definition subjectValid (subject : Policy.PolicySubject) : Prop :=
  Policy.Kind subject <> ""
  /\ Policy.Name subject <> ""
  /\ Policy.Kind subject ∈ ["User"; "Group"; "ServiceAccount"].

Definition ruleValid (rule : Policy.PolicyRule) : Prop :=
  Policy.Namespaces rule <> []
  /\ Policy.Plugins rule <> []
  /\ Policy.Subjects rule <> []
  /\ Forall subjectValid (Policy.Subjects rule).

(** The text of a policy error after ["rule <i>"] carries a subject index
    where one applies: when the three lists of the rule are non-empty, the
    fault is in a subject and the text names the index of a faulty one. *)
Definition subjectTagged (rule : Policy.PolicyRule) (detail : string)
  : Prop :=
  Policy.Namespaces rule <> [] -> Policy.Plugins rule <> [] ->
  Policy.Subjects rule <> [] ->
  exists j subject rest,
    Policy.Subjects rule !! j = Some subject
    /\ ~ subjectValid subject
    /\ detail = ", subject " +:+ itoa j +:+ rest.

Section FileSystem.

Variable ReadFile : string -> result string.
Variable Unmarshal : string -> result Config.ValidationConfig.
Variable Glob : string -> result (list string).
Variable Join : string -> string -> string.

(** [file] loads without error, as the configuration [config]. *)
Definition loadsAs (file : string) (config : Config.ValidationConfig)
  : Prop :=
  Config.LoadConfigFromFile ReadFile Unmarshal file = Ok config.

(** The files that [LoadConfigFromDir] goes through: the [*.yaml] files of
    the directory, or its [*.yml] files when there is no [*.yaml] file. *)
Definition lists (dir : string) (files : list string) : Prop :=
  files <> []
  /\ (Glob (Join dir "*.yaml") = Ok files
      \/ (Glob (Join dir "*.yaml") = Ok []
          /\ Glob (Join dir "*.yml") = Ok files)).

End FileSystem.

End Spec.

(** ** The callers: [ExtendedValidator], [ValidationManager], the plugin *)

Module Extended.

(** The default validator is an interface value that may be nil. *)
Record ExtendedValidator := {
  policyValidator : Policy.PolicyBasedValidator;
  defaultValidator :
    option (Api.ValidateContainerAdjustmentRequest -> option error)
}.

(** [NewExtendedValidator] creates a validator that combines policy and
    default validation. *)
Definition NewExtendedValidator (policy : Policy.NRIValidationPolicySpec)
    (restrictionsConfig : option Restrictions.RestrictionsConfig)
    (defaultValidator :
       option (Api.ValidateContainerAdjustmentRequest -> option error))
  : ExtendedValidator :=
  {| policyValidator :=
       Policy.NewPolicyBasedValidator policy restrictionsConfig;
     defaultValidator := defaultValidator |}.

Section RangeOverPluginMap.

Variable pluginNames : Api.ValidateContainerAdjustmentRequest -> list string.

(** [ValidateContainerAdjustment] performs comprehensive validation. *)
Definition ValidateContainerAdjustment (ev : ExtendedValidator)
    (req : Api.ValidateContainerAdjustmentRequest)
    (validationCtx : option Policy.ValidationContext) : option error :=
  match
    match defaultValidator ev with
    | Some validate =>
        match validate req with
        | Some err => Some ("default validation failed: " +:+ err)
        | None => None
        end
    | None => None
    end
  with
  | Some err => Some err
  | None =>
      match Policy.ValidateContainerAdjustment pluginNames
              (policyValidator ev) req validationCtx with
      | Some err => Some ("policy validation failed: " +:+ err)
      | None => None
      end
  end.

End RangeOverPluginMap.

End Extended.

Module Manager.

(** [ValidationManager] manages all validation components. *)
Record ValidationManager := {
  extendedValidator : Extended.ExtendedValidator;
  config : Config.ValidationConfig
}.

(** The zero value of [var policy NRIValidationPolicySpec]. *)
Definition zeroPolicy : Policy.NRIValidationPolicySpec :=
  {| Policy.DefaultDeny := false; Policy.Rules := [] |}.

(** [NewValidationManager] creates a new validation manager.  The default
    validator stays nil on both sides of the test of
    [EnableDefaultValidator]. *)
Definition NewValidationManager (config : Config.ValidationConfig)
  : result ValidationManager :=
  let defaultValidator :
    option (Api.ValidateContainerAdjustmentRequest -> option error) :=
    if Config.EnableDefaultValidator config then None else None in
  let policy :=
    match Config.Policy config with
    | Some p => p
    | None => zeroPolicy
    end in
  let extendedValidator :=
    Extended.NewExtendedValidator policy (Config.Restrictions config)
                                  defaultValidator in
  Ok {| extendedValidator := extendedValidator; config := config |}.

Section RangeOverPluginMap.

Variable pluginNames : Api.ValidateContainerAdjustmentRequest -> list string.

(** [ValidateContainerAdjustment] validates a container adjustment using
    all configured validators. *)
Definition ValidateContainerAdjustment (vm : ValidationManager)
    (req : Api.ValidateContainerAdjustmentRequest)
    (subject : option Policy.PolicySubject) : option error :=
  let validationCtx :=
    {| Policy.Subject := subject;
       Policy.PodNamespace := "";
       Policy.PodName := "";
       Policy.PluginName := "" |} in
  let validationCtx :=
    match Api.GetPod req with
    | Some pod =>
        {| Policy.Subject := Policy.Subject validationCtx;
           Policy.PodNamespace := Api.GetNamespace pod;
           Policy.PodName := Api.GetName pod;
           Policy.PluginName := Policy.PluginName validationCtx |}
    | None => validationCtx
    end in
  Extended.ValidateContainerAdjustment pluginNames (extendedValidator vm)
                                       req (Some validationCtx).

End RangeOverPluginMap.

End Manager.

Module Plugin.

Section Plugin.

Variable pluginNames : Api.ValidateContainerAdjustmentRequest -> list string.

(** [pod.GetAnnotations()]: the generated getter, which answers the nil map
    for a nil pod, is not among the sources. *)
Variable GetAnnotations : option Api.PodSandbox -> gmap string string.

(** [extractSubjectFromPod] extracts subject information from pod
    metadata; the pointer it returns is never nil. *)
Definition extractSubjectFromPod (pod : option Api.PodSandbox)
  : Policy.PolicySubject :=
  let annotations := GetAnnotations pod in
  match annotations !! "nri.io/user" with
  | Some user => {| Policy.Kind := "User"; Policy.Name := user |}
  | None =>
      match annotations !! "nri.io/group" with
      | Some group => {| Policy.Kind := "Group"; Policy.Name := group |}
      | None =>
          let serviceAccount :=
            match annotations !! "nri.io/service-account" with
            | Some sa => sa
            | None => "default"
            end in
          {| Policy.Kind := "ServiceAccount"; Policy.Name := serviceAccount |}
      end
  end.

(** The plugin's [ValidateContainerAdjustment], without its logging. *)
Definition ValidateContainerAdjustment
    (validationManager : Manager.ValidationManager)
    (req : Api.ValidateContainerAdjustmentRequest) : option error :=
  let pod := Api.GetPod req in
  let subject := extractSubjectFromPod pod in
  match Manager.ValidateContainerAdjustment pluginNames validationManager
          req (Some subject) with
  | Some err => Some ("policy validation failed: " +:+ err)
  | None => None
  end.

End Plugin.

End Plugin.

(** ** Further predicates on configurations, selectors and adjustments *)

Module Shape.

(** The capabilities that [extractMutationCapabilities] can append, in the
    order in which it appends them. *)
Definition reportable : list Restrictions.MutationCapability :=
  [ Restrictions.MutationAnnotations; Restrictions.MutationMounts;
    Restrictions.MutationArgs; Restrictions.MutationEnv;
    Restrictions.MutationHooks; Restrictions.MutationRlimits;
    Restrictions.MutationDevices; Restrictions.MutationResources;
    Restrictions.MutationMemory; Restrictions.MutationCPU;
    Restrictions.MutationBlockIO; Restrictions.MutationRDT;
    Restrictions.MutationUnified; Restrictions.MutationNamespaces ].

(** A pod selector read as a conjunction: an empty pattern list puts no
    condition, every selector label must be on the pod with the same
    value. *)
Definition selects (selector : Restrictions.PodSelector)
    (pod : Api.PodSandbox) : Prop :=
  (Restrictions.Namespaces selector = []
   \/ exists pattern,
       pattern ∈ Restrictions.Namespaces selector
       /\ Restrictions.globMatch pattern (Api.Namespace pod) = true)
  /\ (forall key value,
         Restrictions.Labels selector !! key = Some value ->
         Api.Labels pod !! key = Some value)
  /\ (Restrictions.Names selector = []
      \/ exists pattern,
          pattern ∈ Restrictions.Names selector
          /\ Restrictions.globMatch pattern (Api.Name pod) = true).

(** A mutation restriction fails on a capability list. *)
Definition mutationFails (capabilities : list Restrictions.MutationCapability)
    (restriction : Restrictions.MutationRestriction) : Prop :=
  is_Some (Restrictions.checkMutationRestriction restriction capabilities).

(** A pod restriction fails on a pod. *)
Definition podFails (pod : Api.PodSandbox)
    (restriction : Restrictions.PodRestriction) : Prop :=
  is_Some (Restrictions.checkPodRestriction restriction pod).

(** Some restriction of the configuration refuses the plugin: a global
    mutation or pod restriction, or one of a plugin restriction whose
    pattern matches the plugin name. *)
Definition refuses (config : Restrictions.RestrictionsConfig)
    (capabilities : list Restrictions.MutationCapability)
    (pod : Api.PodSandbox) (pluginName : string) : Prop :=
  (exists r, r ∈ Restrictions.GlobalRestrictions config
             /\ mutationFails capabilities r)
  \/ (exists pr r,
         pr ∈ Restrictions.PluginRestrictions config
         /\ Restrictions.globMatch (Restrictions.PluginPattern pr) pluginName
            = true
         /\ r ∈ Restrictions.MutationRestrictions pr
         /\ mutationFails capabilities r)
  \/ (exists r, r ∈ Restrictions.GlobalPodRestrictions config
                /\ podFails pod r)
  \/ (exists pr r,
         pr ∈ Restrictions.PluginRestrictions config
         /\ Restrictions.globMatch (Restrictions.PluginPattern pr) pluginName
            = true
         /\ r ∈ Restrictions.PodRestrictions pr
         /\ podFails pod r).

(** Structural validity of the restrictions, as [validateRestrictions]
    checks it. *)
Definition mutationRestrictionValid
    (restriction : Restrictions.MutationRestriction) : Prop :=
  (Restrictions.Action restriction = Restrictions.RestrictionAllow
   \/ Restrictions.Action restriction = Restrictions.RestrictionDeny)
  /\ Restrictions.Capabilities restriction <> []
  /\ Forall (fun cap => cap ∈ Config.validCapabilities)
            (Restrictions.Capabilities restriction).

Definition pluginRestrictionValid
    (pluginRestriction : Restrictions.PluginRestriction) : Prop :=
  Restrictions.PluginPattern pluginRestriction <> ""
  /\ Forall mutationRestrictionValid
            (Restrictions.MutationRestrictions pluginRestriction).

Definition restrictionsValid (restrictions : Restrictions.RestrictionsConfig)
  : Prop :=
  (Restrictions.DefaultAction restrictions = ""
   \/ Restrictions.DefaultAction restrictions = Restrictions.RestrictionAllow
   \/ Restrictions.DefaultAction restrictions = Restrictions.RestrictionDeny)
  /\ Forall mutationRestrictionValid
            (Restrictions.GlobalRestrictions restrictions)
  /\ Forall pluginRestrictionValid
            (Restrictions.PluginRestrictions restrictions).

(** Two configuration files that do not set the same optional field. *)
Definition setDisjointFields (a b : Config.ValidationConfig) : Prop :=
  (Config.Policy a = None \/ Config.Policy b = None)
  /\ (Config.Restrictions a = None \/ Config.Restrictions b = None)
  /\ (Config.DefaultValidatorConfig a = None
      \/ Config.DefaultValidatorConfig b = None).

(** The policy has a rule that is selected by the namespace of the context
    and grants access to its plugin and subject. *)
Definition granted (policy : Policy.NRIValidationPolicySpec)
    (ctx : Policy.ValidationContext) : Prop :=
  exists rule,
    rule ∈ Policy.Rules policy
    /\ Spec.ruleMatchesNamespace (Policy.PodNamespace ctx) rule
    /\ Spec.ruleGrants ctx rule.

(** The context that the policy engine works with: the caller's, or for a
    nil context one made of the pod's namespace and name, without a
    subject. *)
Definition effectiveContext (validationCtx : option Policy.ValidationContext)
    (pod : Api.PodSandbox) : Policy.ValidationContext :=
  match validationCtx with
  | Some c => c
  | None =>
      {| Policy.Subject := None;
         Policy.PodNamespace := Api.Namespace pod;
         Policy.PodName := Api.Name pod;
         Policy.PluginName := "" |}
  end.

(** The context that the validation manager makes for a pod and a
    subject. *)
Definition managerContext (subject : option Policy.PolicySubject)
    (pod : Api.PodSandbox) : Policy.ValidationContext :=
  {| Policy.Subject := subject;
     Policy.PodNamespace := Api.Namespace pod;
     Policy.PodName := Api.Name pod;
     Policy.PluginName := "" |}.

(** No ["*"] occurs in the pattern. *)
Definition starFree (pattern : string) : Prop :=
  forall pre post, pattern <> pre +:+ "*" +:+ post.

End Shape.

(** * Properties *)

(** ** Go string primitives against concatenation *)

Section GoStringFacts.
Import GoStrings.

Lemma append_cons (a : Ascii.ascii) (s t : string) :
  String a s +:+ t = String a (s +:+ t).
Proof. reflexivity. Qed.

Lemma append_nil (t : string) : "" +:+ t = t.
Proof. reflexivity. Qed.

Lemma length_append (s t : string) :
  strlen (s +:+ t) = (strlen s + strlen t)%nat.
Proof.
  induction s as [|a s IH]; [done |].
  rewrite append_cons. simpl. by rewrite IH.
Qed.

Lemma substring_all (s : string) : substring 0 (strlen s) s = s.
Proof. induction s as [|a s IH]; simpl; [done | by rewrite IH]. Qed.

Lemma substring_append_l (s t : string) :
  substring 0 (strlen s) (s +:+ t) = s.
Proof.
  induction s as [|a s IH].
  - rewrite append_nil. by destruct t.
  - rewrite append_cons. simpl. by rewrite IH.
Qed.

Lemma substring_append_r (s t : string) :
  substring (strlen s) (strlen t) (s +:+ t) = t.
Proof.
  induction s as [|a s IH]; [apply substring_all |].
  rewrite append_cons. exact IH.
Qed.

Lemma substring_split (n : nat) (s : string) :
  (n <= strlen s)%nat ->
  s = substring 0 n s +:+ substring n (strlen s - n) s.
Proof.
  revert n. induction s as [|a s IH]; intros [|n] Hn; simpl in *; try lia.
  - done.
  - by rewrite substring_all.
  - rewrite append_cons. f_equal. apply IH. lia.
Qed.

Lemma length_substring (n m : nat) (s : string) :
  (n + m <= strlen s)%nat -> strlen (substring n m s) = m.
Proof.
  revert n m. induction s as [|a s IH]; intros [|n] [|m] H; simpl in *;
    try lia; try done.
  - f_equal. apply (IH 0%nat). lia.
  - apply IH. lia.
  - apply IH. lia.
Qed.

Lemma HasPrefix_spec (s p : string) :
  HasPrefix s p = true <-> exists t, s = p +:+ t.
Proof.
  unfold HasPrefix. rewrite andb_true_iff, Nat.leb_le, String.eqb_eq. split.
  - intros [Hlen Hsub]. exists (substring (strlen p)
                                   (strlen s - strlen p) s).
    rewrite <- Hsub at 1. by apply substring_split.
  - intros [t ->]. rewrite length_append. split; [lia |].
    apply substring_append_l.
Qed.

Lemma HasSuffix_spec (s x : string) :
  HasSuffix s x = true <-> exists t, s = t +:+ x.
Proof.
  unfold HasSuffix. rewrite andb_true_iff, Nat.leb_le, String.eqb_eq. split.
  - intros [Hlen Hsub].
    exists (substring 0 (strlen s - strlen x) s).
    pose proof (substring_split (strlen s - strlen x) s ltac:(lia)) as Hs.
    replace (strlen s - (strlen s - strlen x))%nat
      with (strlen x) in Hs by lia.
    by rewrite Hsub in Hs.
  - intros [t ->]. rewrite length_append. split; [lia |].
    replace (strlen t + strlen x - strlen x)%nat
      with (strlen t) by lia.
    apply substring_append_r.
Qed.

Lemma append_inj_r (t s1 s2 : string) : t +:+ s1 = t +:+ s2 -> s1 = s2.
Proof.
  induction t as [|a t IH]; [done |].
  rewrite !append_cons. intros [= H]. auto.
Qed.

Lemma append_inj_l (s1 s2 x : string) :
  strlen s1 = strlen s2 -> s1 +:+ x = s2 +:+ x -> s1 = s2.
Proof.
  revert s2. induction s1 as [|a s1 IH]; intros [|b s2] Hl H; simpl in Hl;
    try done.
  rewrite !append_cons in H.
  injection H as -> H. f_equal. apply IH; [lia | done].
Qed.

Lemma TrimSuffix_append (t x : string) : TrimSuffix (t +:+ x) x = t.
Proof.
  unfold TrimSuffix.
  assert (HasSuffix (t +:+ x) x = true) as -> by (apply HasSuffix_spec; eauto).
  rewrite length_append.
  replace (strlen t + strlen x - strlen x)%nat
    with (strlen t) by lia.
  apply substring_append_l.
Qed.

Lemma TrimPrefix_append (p t : string) : TrimPrefix (p +:+ t) p = t.
Proof.
  unfold TrimPrefix.
  assert (HasPrefix (p +:+ t) p = true) as -> by (apply HasPrefix_spec; eauto).
  rewrite length_append.
  replace (strlen p + strlen t - strlen p)%nat
    with (strlen t) by lia.
  apply substring_append_r.
Qed.

Lemma Contains_substring (s x : string) (m : nat) :
  x <> "" -> substring m (strlen x) s = x -> Contains s x = true.
Proof.
  intros Hx Hsub. unfold Contains.
  destruct (String.index 0 x s) eqn:Hidx; [done |].
  exfalso. eapply (String.index_correct3 0 m); eauto. lia.
Qed.

Lemma Contains_of_HasSuffix (s x : string) :
  x <> "" -> HasSuffix s x = true -> Contains s x = true.
Proof.
  intros Hx [t ->]%HasSuffix_spec.
  apply (Contains_substring _ _ (strlen t)); [done |].
  apply substring_append_r.
Qed.

Lemma Contains_of_HasPrefix (s x : string) :
  x <> "" -> HasPrefix s x = true -> Contains s x = true.
Proof.
  intros Hx [t ->]%HasPrefix_spec.
  apply (Contains_substring _ _ 0); [done |].
  apply substring_append_l.
Qed.

End GoStringFacts.

(** ** Pattern matcher *)

Section GlobMatch.
Import GoStrings.

Lemma Policy_globMatch_eq (pattern str : string) :
  Policy.globMatch pattern str = Restrictions.globMatch pattern str.
Proof. reflexivity. Qed.

Lemma star_suffix_inj (pre pre' : string) :
  pre +:+ "*" = pre' +:+ "*" -> pre = pre'.
Proof.
  intros H. apply (append_inj_l _ _ "*"); [| done].
  apply (f_equal String.length) in H. rewrite !length_append in H.
  simpl in H. lia.
Qed.

Lemma globMatch_prefix_first (pattern str : string) :
  Restrictions.globMatch pattern str = true
  <-> Spec.matchPrefixFirst pattern str.
Proof.
  unfold Restrictions.globMatch, Spec.matchPrefixFirst.
  destruct (String.eqb_spec pattern "*") as [-> | Hstar].
  { split; [by left | done]. }
  destruct (HasSuffix pattern "*") eqn:Hsuf.
  - rewrite (Contains_of_HasSuffix pattern "*" ltac:(discriminate) Hsuf).
    apply HasSuffix_spec in Hsuf as [pre ->].
    rewrite TrimSuffix_append, HasPrefix_spec. split.
    + intros [t ->]. right; left. eauto.
    + intros [H | [(pre' & t & Hp & ->) | [[_ Hno] | <-]]].
      * done.
      * apply star_suffix_inj in Hp as ->. eauto.
      * destruct Hno. eauto.
      * eauto.
  - assert (Hnosuf : ~ (exists pre, pattern = pre +:+ "*")).
    { intros Hex. apply HasSuffix_spec in Hex. congruence. }
    destruct (HasPrefix pattern "*") eqn:Hpre.
    + rewrite (Contains_of_HasPrefix pattern "*" ltac:(discriminate) Hpre).
      apply HasPrefix_spec in Hpre as [suf ->].
      rewrite TrimPrefix_append, HasSuffix_spec. split.
      * intros [t ->]. right; right; left. split; [eauto | done].
      * intros [H | [(pre' & t & Hp & _) | [[(suf' & t & Hp & ->) _] | <-]]].
        -- done.
        -- destruct Hnosuf. eauto.
        -- apply append_inj_r in Hp as ->. eauto.
        -- exists "*". done.
    + assert (Hnopre : ~ (exists suf, pattern = "*" +:+ suf)).
      { intros Hex. apply HasPrefix_spec in Hex. congruence. }
      assert (String.eqb pattern str = true <-> pattern = str) as Heq
        by apply String.eqb_eq.
      destruct (Contains pattern "*"); rewrite Heq; split; auto;
        intros [H | [(pre' & t & Hp & _) | [[(suf' & t & Hp & _) _] | H]]];
        try done.
      all: try (destruct Hnosuf; eauto; fail).
      all: destruct Hnopre; eauto.
Qed.

(** The examples of the specification and of [TestGlobMatching]. *)
Example globMatch_examples :
  Restrictions.globMatch "*" "anything" = true
  /\ Restrictions.globMatch "dev-*" "dev-test" = true
  /\ Restrictions.globMatch "dev-*" "prod-test" = false
  /\ Restrictions.globMatch "*-test" "dev-test" = true
  /\ Restrictions.globMatch "*-test" "dev-prod" = false
  /\ Restrictions.globMatch "a*b" "axxb" = false
  /\ Restrictions.globMatch "exact" "exact" = true
  /\ Restrictions.globMatch "exact" "different" = false.
Proof. repeat split; reflexivity. Qed.

(** C4, as stated, fails: the pattern ["*a*"] both ends and begins with
    ["*"], the value ["xa*"] has the suffix ["a*"] of the pattern, so the
    stated condition holds, and both matchers answer [false] because the
    trailing ["*"] is tried first and ["xa*"] does not start with ["*a"]. *)
Lemma globMatch_as_stated_fails :
  ~ (Restrictions.globMatch "*a*" "xa*" = true
     <-> Spec.matchAsStated "*a*" "xa*")
  /\ ~ (Policy.globMatch "*a*" "xa*" = true
        <-> Spec.matchAsStated "*a*" "xa*").
Proof.
  assert (Spec.matchAsStated "*a*" "xa*") as Hspec.
  { right; right; left. exists "a*", "x". done. }
  split; intros [_ H]; specialize (H Hspec); vm_compute in H; discriminate.
Qed.

(** C4, amended: both pattern matchers return true iff the pattern is
    ["*"]; or the pattern ends in ["*"] and the value has the pattern's
    prefix; or the pattern begins with ["*"], does not end in ["*"], and the
    value has the pattern's suffix; or the pattern equals the value.  An
    embedded ["*"] is not interpreted. *)
Theorem globMatch_iff_prefix_first (pattern str : string) :
  (Restrictions.globMatch pattern str = true
   <-> Spec.matchPrefixFirst pattern str)
  /\ (Policy.globMatch pattern str = true
      <-> Spec.matchPrefixFirst pattern str).
Proof.
  split; [| rewrite Policy_globMatch_eq]; apply globMatch_prefix_first.
Qed.

End GlobMatch.

(** ** Loops and membership *)

Section Loops.

Lemma slicesContains_true (l : list string) (v : string) :
  slicesContains l v = true <-> v ∈ l.
Proof.
  unfold slicesContains. rewrite existsb_exists. split.
  - intros (x & Hin & ->%String.eqb_eq). by apply list_elem_of_In.
  - intros Hin. exists v. split; [by apply list_elem_of_In |].
    apply String.eqb_refl.
Qed.

Lemma slicesContains_false (l : list string) (v : string) :
  slicesContains l v = false <-> v ∉ l.
Proof.
  rewrite <- slicesContains_true. by destruct (slicesContains l v).
Qed.

Lemma forEach_is_Some {A : Type} (body : A -> option error) (l : list A) :
  is_Some (forEach body l) <-> exists x, x ∈ l /\ is_Some (body x).
Proof.
  induction l as [|x l IH]; simpl.
  - split; [by intros [? ?] | intros (x & Hx & _); by inversion Hx].
  - destruct (body x) as [e|] eqn:Hb.
    + split; [| by eauto]. intros _. exists x. rewrite Hb.
      split; [left | eauto].
    + rewrite IH. split.
      * intros (y & Hy & Hsome). exists y. split; [by right | done].
      * intros (y & [-> | Hy]%elem_of_cons & Hsome).
        -- rewrite Hb in Hsome. by destruct Hsome.
        -- eauto.
Qed.

Lemma forEach_ext {A : Type} (f g : A -> option error) (l : list A) :
  (forall x, f x = g x) -> forEach f l = forEach g l.
Proof.
  intros Hfg. induction l as [|x l IH]; simpl; [done |].
  by rewrite Hfg, IH.
Qed.

Lemma existsb_elem_of {A : Type} (f : A -> bool) (l : list A) :
  existsb f l = true <-> exists x, x ∈ l /\ f x = true.
Proof.
  rewrite existsb_exists. split; intros (x & Hin & Hf); exists x;
    (split; [by apply list_elem_of_In | done]).
Qed.

End Loops.

(** ** Restrictions engine *)

Section RestrictionChecks.
Import Restrictions.

(** C3: a mutation-restriction check fails iff the action is deny and some
    extracted capability is in the restriction's list, or the action is
    allow and some extracted capability is not in it; on the empty
    capability list every check passes. *)
Theorem checkMutationRestriction_fails_iff
    (restriction : MutationRestriction)
    (capabilities : list MutationCapability) :
  (is_Some (checkMutationRestriction restriction capabilities)
   <-> (Action restriction = RestrictionDeny
        /\ exists cap, cap ∈ capabilities /\ cap ∈ Capabilities restriction)
       \/ (Action restriction = RestrictionAllow
           /\ exists cap, cap ∈ capabilities
                          /\ cap ∉ Capabilities restriction))
  /\ checkMutationRestriction restriction [] = None.
Proof.
  split.
  - unfold checkMutationRestriction.
    destruct (String.eqb_spec (Action restriction) RestrictionAllow) as [Ha|Ha].
    + rewrite forEach_is_Some. split.
      * intros (cap & Hin & Hsome). right. split; [done |]. exists cap.
        split; [done |]. apply slicesContains_false.
        destruct (slicesContains (Capabilities restriction) cap);
          [by destruct Hsome | done].
      * intros [[Hd _] | [_ (cap & Hin & Hnot)]].
        { rewrite Ha in Hd. discriminate. }
        exists cap. split; [done |].
        apply slicesContains_false in Hnot. rewrite Hnot. simpl. eauto.
    + destruct (String.eqb_spec (Action restriction) RestrictionDeny)
        as [Hd|Hd].
      * rewrite forEach_is_Some. split.
        -- intros (cap & Hin & Hsome). left. split; [done |]. exists cap.
           split; [done |]. apply slicesContains_true.
           destruct (slicesContains (Capabilities restriction) cap);
             [done | by destruct Hsome].
        -- intros [[_ (cap & Hin & Hyes)] | [Ha' _]]; [| done].
           exists cap. split; [done |].
           apply slicesContains_true in Hyes. rewrite Hyes. eauto.
      * split; [by intros [? ?] |]. intros [[? _] | [? _]]; done.
  - unfold checkMutationRestriction.
    destruct (String.eqb _ RestrictionAllow); [done |].
    by destruct (String.eqb _ RestrictionDeny).
Qed.

Lemma elem_of_appendIf (x c : MutationCapability) (cond : bool)
    (l : list MutationCapability) :
  x ∈ appendIf cond c l <-> x ∈ l \/ (cond = true /\ x = c).
Proof.
  unfold appendIf. destruct cond.
  - rewrite elem_of_app, list_elem_of_singleton. intuition.
  - intuition discriminate.
Qed.

(** The seccomp field and the report of the extractor part ways: an
    adjustment that carries a seccomp policy and nothing else has its
    seccomp field set, and the extractor reports no capability for it. *)
Lemma extract_seccomp_as_stated_fails :
  let adjust :=
    Some {| Api.Annotations := ∅; Api.Mounts := []; Api.Args := [];
            Api.Env := []; Api.Hooks_ := None; Api.Rlimits := [];
            Api.Linux :=
              Some {| Api.Devices := []; Api.Resources := None;
                      Api.Namespaces := [];
                      Api.SeccompPolicy :=
                        Some {| Api.DefaultAction_ := "SCMP_ACT_ALLOW" |} |}
         |} in
  ~ (MutationSeccomp ∈ extractMutationCapabilities adjust
     <-> Spec.seccompFieldSet adjust = true).
Proof.
  intros adjust [_ H]. specialize (H eq_refl).
  vm_compute in H. by apply elem_of_nil in H.
Qed.

(** Seccomp is a member of the capability enumeration that the
    configuration validator accepts, and the extractor has no branch that
    appends it: it is reported for no adjustment. *)
Theorem extract_never_reports_seccomp :
  MutationSeccomp ∈ Config.validCapabilities
  /\ forall adjust : option Api.ContainerAdjustment,
      MutationSeccomp ∉ extractMutationCapabilities adjust.
Proof.
  split.
  - unfold Config.validCapabilities. set_solver.
  - intros [adjust|]; [| apply not_elem_of_nil].
    unfold extractMutationCapabilities.
    destruct (Api.Linux adjust) as [linux|];
      [destruct (Api.Resources linux) as [resources|] |];
      repeat (rewrite elem_of_appendIf || rewrite elem_of_app
              || rewrite list_elem_of_singleton || rewrite elem_of_nil);
      unfold MutationSeccomp, MutationAnnotations, MutationMounts,
        MutationArgs, MutationEnv, MutationHooks, MutationRlimits,
        MutationDevices, MutationResources, MutationNamespaces,
        MutationMemory, MutationCPU, MutationBlockIO, MutationRDT,
        MutationUnified;
      intuition discriminate.
Qed.

(** C5, on the code: the extractor misses a change of the seccomp policy.
    For an adjustment whose seccomp field is set (and nothing else) it
    reports no capability, where the claim has it report seccomp.  So the
    global restriction of [CreateExampleConfig], which denies namespaces,
    seccomp and hooks, does not fail on it, and the restrictions engine
    configured with the example lets the request through. *)
Theorem seccomp_policy_change_is_not_detected :
  let adjust :=
    {| Api.Annotations := ∅; Api.Mounts := []; Api.Args := [];
       Api.Env := []; Api.Hooks_ := None; Api.Rlimits := [];
       Api.Linux :=
         Some {| Api.Devices := []; Api.Resources := None;
                 Api.Namespaces := [];
                 Api.SeccompPolicy :=
                   Some {| Api.DefaultAction_ := "SCMP_ACT_ALLOW" |} |} |} in
  let denyDangerous :=
    {| Action := RestrictionDeny;
       Capabilities := [MutationNamespaces; MutationSeccomp; MutationHooks]
    |} in
  let exampleRestrictions :=
    {| DefaultAction := RestrictionAllow;
       GlobalRestrictions := [denyDangerous];
       PluginRestrictions := []; GlobalPodRestrictions := [] |} in
  let req :=
    {| Api.Pod := Some {| Api.Name := "test-pod"; Api.Namespace := "test";
                          Api.Labels := ∅ |};
       Api.Adjust := Some adjust;
       Api.Plugins := [{| Api.Plugin_Name := "test-plugin";
                          Api.Plugin_Index := "00" |}] |} in
  Spec.seccompFieldSet (Some adjust) = true
  /\ extractMutationCapabilities (Some adjust) = []
  /\ (MutationSeccomp ∉ extractMutationCapabilities (Some adjust))
  /\ Config.validateRestrictions exampleRestrictions = None
  /\ checkMutationRestriction denyDangerous
       (extractMutationCapabilities (Some adjust)) = None
  /\ ValidateContainerAdjustment Api.pluginNamesInOrder
       (NewRestrictionsValidator exampleRestrictions) req = None.
Proof.
  intros adjust denyDangerous exampleRestrictions req.
  split; [reflexivity |]. split; [reflexivity |].
  split; [apply not_elem_of_nil |].
  split; [reflexivity |]. split; reflexivity.
Qed.

(** C6: the extractor returns no capability for a nil adjustment, and
    exactly [resources] and [memory] for an adjustment whose only
    non-empty content is the memory sub-field of the Linux resources. *)
Theorem extract_nil_and_memory_only :
  extractMutationCapabilities None = []
  /\ forall adjust : Api.ContainerAdjustment,
      Spec.onlyMemorySet adjust ->
      extractMutationCapabilities (Some adjust)
      = [MutationResources; MutationMemory].
Proof.
  split; [done |].
  intros adjust (Han & Hmo & Har & Hen & Hho & Hrl & linux & resources & memory
                 & Hli & Hde & Hns & Hre & Hme & Hcp & Hbl & Hrd & Hun).
  unfold extractMutationCapabilities.
  rewrite Han, Hmo, Har, Hen, Hho, Hrl, Hli, Hde, Hns, Hre, Hme, Hcp, Hbl,
    Hrd, Hun.
  reflexivity.
Qed.

Lemma extract_nil_and_memory_only_witness :
  let adjust :=
    {| Api.Annotations := ∅; Api.Mounts := []; Api.Args := [];
       Api.Env := []; Api.Hooks_ := None; Api.Rlimits := [];
       Api.Linux :=
         Some {| Api.Devices := [];
                 Api.Resources :=
                   Some {| Api.Memory :=
                             Some {| Api.Limit := Some 1048576%Z;
                                     Api.Swap := None |};
                           Api.Cpu := None; Api.BlockioClass := None;
                           Api.RdtClass := None; Api.Unified := ∅ |};
                 Api.Namespaces := []; Api.SeccompPolicy := None |} |} in
  Spec.onlyMemorySet adjust
  /\ extractMutationCapabilities (Some adjust)
     = [MutationResources; MutationMemory].
Proof.
  intros adjust.
  assert (Spec.onlyMemorySet adjust) as H.
  { unfold Spec.onlyMemorySet, adjust; simpl.
    repeat (split; [reflexivity |]).
    eexists _, _, _. repeat (split; [reflexivity |]). reflexivity. }
  split; [exact H |].
  exact (proj2 extract_nil_and_memory_only adjust H).
Defined.

End RestrictionChecks.

Section RestrictionsValidation.
Import Restrictions.

(** C2: the result of the restrictions engine does not depend on
    [DefaultAction]: two configurations that agree on every other field
    give the same result (the same [nil], or the same error) on every
    request, the plugin map being visited in the same order. *)
Theorem ValidateContainerAdjustment_ignores_DefaultAction
    (pluginNames : Api.ValidateContainerAdjustmentRequest -> list string)
    (c1 c2 : RestrictionsConfig)
    (req : Api.ValidateContainerAdjustmentRequest) :
  Spec.sameButDefaultAction c1 c2 ->
  ValidateContainerAdjustment pluginNames (NewRestrictionsValidator c1) req
  = ValidateContainerAdjustment pluginNames (NewRestrictionsValidator c2) req.
Proof.
  destruct c1 as [d1 g1 p1 gp1], c2 as [d2 g2 p2 gp2].
  unfold Spec.sameButDefaultAction. simpl. intros (-> & -> & ->).
  unfold ValidateContainerAdjustment. destruct (Api.GetPod req); [| done].
  apply forEach_ext. intros pluginName.
  unfold validatePluginMutations, validatePodAccess, findPluginRestrictions.
  reflexivity.
Qed.

Lemma ValidateContainerAdjustment_ignores_DefaultAction_witness :
  let deny_namespaces :=
    {| Action := RestrictionDeny; Capabilities := [MutationNamespaces] |} in
  let c1 :=
    {| DefaultAction := RestrictionAllow;
       GlobalRestrictions := [deny_namespaces];
       PluginRestrictions := []; GlobalPodRestrictions := [] |} in
  let c2 :=
    {| DefaultAction := RestrictionDeny;
       GlobalRestrictions := [deny_namespaces];
       PluginRestrictions := []; GlobalPodRestrictions := [] |} in
  let req :=
    {| Api.Pod := Some {| Api.Name := "test-pod"; Api.Namespace := "test";
                          Api.Labels := ∅ |};
       Api.Adjust := None;
       Api.Plugins := [{| Api.Plugin_Name := "test-plugin";
                          Api.Plugin_Index := "00" |}] |} in
  Spec.sameButDefaultAction c1 c2
  /\ ValidateContainerAdjustment Api.pluginNamesInOrder
       (NewRestrictionsValidator c1) req
     = ValidateContainerAdjustment Api.pluginNamesInOrder
         (NewRestrictionsValidator c2) req.
Proof.
  intros deny_namespaces c1 c2 req.
  assert (Spec.sameButDefaultAction c1 c2) as H.
  { unfold Spec.sameButDefaultAction. simpl. repeat split; reflexivity. }
  split; [exact H |].
  exact (ValidateContainerAdjustment_ignores_DefaultAction
           Api.pluginNamesInOrder c1 c2 req H).
Defined.

End RestrictionsValidation.

(** ** Policy engine *)

Section PolicyChecks.
Import Policy.

Lemma subjectAllowed_true (subject : option PolicySubject)
    (allowedSubjects : list PolicySubject) :
  subjectAllowed subject allowedSubjects = true
  <-> exists s a, subject = Some s /\ a ∈ allowedSubjects
                  /\ Kind s = Kind a /\ Name s = Name a.
Proof.
  destruct subject as [s|]; simpl.
  - rewrite existsb_elem_of. split.
    + intros (a & Hin & [Hk Hn]%andb_true_iff).
      apply String.eqb_eq in Hk, Hn. by exists s, a.
    + intros (s' & a & [= <-] & Hin & Hk & Hn). exists a.
      split; [done |]. rewrite Hk, Hn, !String.eqb_refl. done.
  - split; [done |]. by intros (s & a & [=] & _).
Qed.

(** C7: for a nil subject the subject check answers false whatever the
    allowed subjects, so that no rule grants; the check answers true only
    for a non-nil subject whose kind and name both equal those of an
    allowed subject. *)
Theorem subjectAllowed_nil_never_granted :
  (forall allowedSubjects : list PolicySubject,
      subjectAllowed None allowedSubjects = false)
  /\ (forall (pluginName : string) (rules : list PolicyRule),
         existsb (fun rule =>
                    pluginAllowed pluginName (Plugins rule)
                    && subjectAllowed None (Subjects rule)) rules = false)
  /\ (forall (subject : option PolicySubject)
             (allowedSubjects : list PolicySubject),
         subjectAllowed subject allowedSubjects = true
         <-> exists s a, subject = Some s /\ a ∈ allowedSubjects
                         /\ Kind s = Kind a /\ Name s = Name a).
Proof.
  split; [done |]. split; [| apply subjectAllowed_true].
  intros pluginName rules. apply not_true_iff_false.
  rewrite existsb_elem_of. intros (rule & _ & [_ H]%andb_true_iff).
  discriminate H.
Qed.

Lemma namespaceMatches_true (namespace : string) (rule : PolicyRule) :
  namespaceMatches namespace (Namespaces rule) = true
  <-> Spec.ruleMatchesNamespace namespace rule.
Proof. unfold namespaceMatches. apply existsb_elem_of. Qed.

Lemma rule_grants_true (ctx : ValidationContext) (rule : PolicyRule) :
  pluginAllowed (PluginName ctx) (Plugins rule)
  && subjectAllowed (Subject ctx) (Subjects rule) = true
  <-> Spec.ruleGrants ctx rule.
Proof.
  unfold Spec.ruleGrants, pluginAllowed.
  by rewrite andb_true_iff, existsb_elem_of, subjectAllowed_true.
Qed.

Lemma elem_of_findMatchingRules (pv : PolicyBasedValidator)
    (namespace : string) (rule : PolicyRule) :
  rule ∈ findMatchingRules pv namespace
  <-> rule ∈ Rules (policy pv) /\ Spec.ruleMatchesNamespace namespace rule.
Proof.
  unfold findMatchingRules.
  by rewrite <- namespaceMatches_true, !list_elem_of_In, filter_In.
Qed.

Lemma deny_iff_DefaultDeny (defaultDeny : bool) (msg : error) :
  is_Some (if defaultDeny then Some msg else None) <-> defaultDeny = true.
Proof.
  destruct defaultDeny; split; eauto; done.
Qed.

(** C1: the flag [DefaultDeny] governs both failure branches of the policy
    decision.  When no rule's namespace patterns match the pod namespace,
    access is denied iff [DefaultDeny] is true; and when some rule matches
    but no matching rule grants (plugin pattern and exactly equal subject),
    access is likewise denied iff [DefaultDeny] is true. *)
Theorem validatePluginAccess_DefaultDeny_both_branches
    (pv : PolicyBasedValidator) (ctx : ValidationContext) :
  ((forall rule, rule ∈ Rules (policy pv) ->
                 ~ Spec.ruleMatchesNamespace (PodNamespace ctx) rule) ->
   (is_Some (validatePluginAccess pv ctx)
    <-> DefaultDeny (policy pv) = true))
  /\ ((exists rule, rule ∈ Rules (policy pv)
                    /\ Spec.ruleMatchesNamespace (PodNamespace ctx) rule) ->
      (forall rule, rule ∈ Rules (policy pv) ->
                    Spec.ruleMatchesNamespace (PodNamespace ctx) rule ->
                    ~ Spec.ruleGrants ctx rule) ->
      (is_Some (validatePluginAccess pv ctx)
       <-> DefaultDeny (policy pv) = true)).
Proof.
  unfold validatePluginAccess. split.
  - intros Hnone.
    destruct (findMatchingRules pv (PodNamespace ctx)) as [|rule l] eqn:Hm.
    + simpl. apply deny_iff_DefaultDeny.
    + assert (rule ∈ findMatchingRules pv (PodNamespace ctx)) as Hin
        by (rewrite Hm; left).
      apply elem_of_findMatchingRules in Hin as [Hin Hmatch].
      by destruct (Hnone rule Hin).
  - intros (rule & Hin & Hmatch) Hnogrant.
    assert (rule ∈ findMatchingRules pv (PodNamespace ctx)) as Hsel
      by (by apply elem_of_findMatchingRules).
    destruct (findMatchingRules pv (PodNamespace ctx)) as [|r l] eqn:Hm;
      [by inversion Hsel |].
    simpl length. simpl Nat.eqb. cbv iota.
    destruct (existsb _ (r :: l)) eqn:Hex.
    + apply existsb_elem_of in Hex as (g & Hg & Hgrant).
      rewrite <- Hm in Hg.
      apply elem_of_findMatchingRules in Hg as [Hg Hgm].
      apply rule_grants_true in Hgrant. by destruct (Hnogrant g Hg Hgm).
    + apply deny_iff_DefaultDeny.
Qed.

Lemma validatePluginAccess_DefaultDeny_both_branches_witness :
  let rule :=
    {| Namespaces := ["dev-*"]; Plugins := ["*"];
       Subjects := [{| Kind := "User"; Name := "developer" |}] |} in
  let pv :=
    NewPolicyBasedValidator {| DefaultDeny := true; Rules := [rule] |} None in
  let other := Some {| Kind := "User"; Name := "other" |} in
  let inProduction :=
    {| Subject := other; PodNamespace := "production";
       PodName := "test-pod"; PluginName := "test-plugin" |} in
  let inDev :=
    {| Subject := other; PodNamespace := "dev-test";
       PodName := "test-pod"; PluginName := "test-plugin" |} in
  (is_Some (validatePluginAccess pv inProduction)
   <-> DefaultDeny (policy pv) = true)
  /\ (is_Some (validatePluginAccess pv inDev)
      <-> DefaultDeny (policy pv) = true).
Proof.
  intros rule pv other inProduction inDev. split.
  - apply (proj1 (validatePluginAccess_DefaultDeny_both_branches
                    pv inProduction)).
    intros r Hr (pattern & Hp & Hm).
    apply list_elem_of_singleton in Hr. subst r.
    apply list_elem_of_singleton in Hp. subst pattern.
    vm_compute in Hm. discriminate Hm.
  - apply (proj2 (validatePluginAccess_DefaultDeny_both_branches pv inDev)).
    + exists rule. split; [left |]. exists "dev-*". split; [left | reflexivity].
    + intros r Hr _ [_ (s & a & Hs & Ha & _ & Hn)].
      apply list_elem_of_singleton in Hr. subst r.
      apply list_elem_of_singleton in Ha. subst a.
      injection Hs as <-. discriminate Hn.
Defined.

End PolicyChecks.

(** ** Requests without a pod *)

Section NilPod.

(** C10: a request whose pod is nil is refused by the restrictions engine
    and by the policy engine, with an error that is the same whatever the
    configuration, the rules, the context and the rest of the request. *)
Theorem nil_pod_is_refused
    (pluginNames : Api.ValidateContainerAdjustmentRequest -> list string)
    (req : Api.ValidateContainerAdjustmentRequest) :
  Api.Pod req = None ->
  (forall rv : Restrictions.RestrictionsValidator,
      Restrictions.ValidateContainerAdjustment pluginNames rv req
      = Some "pod information is required for restrictions validation")
  /\ (forall (pv : Policy.PolicyBasedValidator)
             (validationCtx : option Policy.ValidationContext),
         Policy.ValidateContainerAdjustment pluginNames pv req validationCtx
         = Some "pod information is required for policy validation").
Proof.
  intros Hpod. split; intros;
    unfold Restrictions.ValidateContainerAdjustment,
      Policy.ValidateContainerAdjustment, Api.GetPod;
    by rewrite Hpod.
Qed.

Lemma nil_pod_is_refused_witness :
  let req :=
    {| Api.Pod := None; Api.Adjust := None;
       Api.Plugins := [{| Api.Plugin_Name := "test-plugin";
                          Api.Plugin_Index := "00" |}] |} in
  let rv :=
    Restrictions.NewRestrictionsValidator
      {| Restrictions.DefaultAction := "";
         Restrictions.GlobalRestrictions := [];
         Restrictions.PluginRestrictions := [];
         Restrictions.GlobalPodRestrictions := [] |} in
  let pv :=
    Policy.NewPolicyBasedValidator
      {| Policy.DefaultDeny := false; Policy.Rules := [] |} None in
  Api.Pod req = None
  /\ is_Some (Restrictions.ValidateContainerAdjustment
                Api.pluginNamesInOrder rv req)
  /\ is_Some (Policy.ValidateContainerAdjustment
                Api.pluginNamesInOrder pv req None).
Proof.
  intros req rv pv.
  pose proof (nil_pod_is_refused Api.pluginNamesInOrder req eq_refl)
    as [Hr Hp].
  split; [reflexivity |]. split.
  - rewrite (Hr rv). eauto.
  - rewrite (Hp pv None). eauto.
Defined.

End NilPod.

(** ** Configuration: directory merge *)

Section DirectoryMerge.
Import Config.

Variable ReadFile : string -> result string.
Variable Unmarshal : string -> result ValidationConfig.
Variable Glob : string -> result (list string).
Variable Join : string -> string -> string.

Local Abbreviation loadsAs := (Spec.loadsAs ReadFile Unmarshal).
Local Abbreviation lists := (Spec.lists Glob Join).

Lemma mergeFiles_fold (files : list string) (configs : list ValidationConfig)
    (mergedConfig : ValidationConfig) :
  Forall2 loadsAs files configs ->
  mergeFiles ReadFile Unmarshal files mergedConfig
  = Ok (fold_left mergeInto configs mergedConfig).
Proof.
  intros H. revert mergedConfig.
  induction H as [|file config files configs Hload _ IH]; intros acc; simpl.
  - reflexivity.
  - unfold Spec.loadsAs in Hload. rewrite Hload. apply IH.
Qed.

Lemma LoadConfigFromDir_fold (dir : string) (files : list string)
    (configs : list ValidationConfig) :
  lists dir files -> Forall2 loadsAs files configs ->
  LoadConfigFromDir ReadFile Unmarshal Glob Join dir
  = Ok (fold_left mergeInto configs zeroConfig).
Proof.
  intros [Hne Hglob] Hload. unfold LoadConfigFromDir.
  assert ((length files =? 0)%nat = false) as Hlen.
  { apply Nat.eqb_neq. by destruct files. }
  destruct Hglob as [-> | [-> ->]]; simpl; rewrite ?Hlen;
    by apply mergeFiles_fold.
Qed.

Section Field.

(** A field of the configuration that the merge loop replaces as a whole
    when the later file sets it. *)
Context {A : Type} (field : ValidationConfig -> option A).
Hypothesis field_mergeInto : forall mergedConfig config,
  field (mergeInto mergedConfig config)
  = match field config with
    | Some x => Some x
    | None => field mergedConfig
    end.

Lemma fold_mergeInto_unset (configs : list ValidationConfig)
    (mergedConfig : ValidationConfig) :
  Forall (fun c => field c = None) configs ->
  field (fold_left mergeInto configs mergedConfig) = field mergedConfig.
Proof.
  intros H. revert mergedConfig.
  induction H as [|c configs Hc _ IH]; intros acc; simpl; [done |].
  by rewrite IH, field_mergeInto, Hc.
Qed.

Lemma fold_mergeInto_last_set (before after : list ValidationConfig)
    (config mergedConfig : ValidationConfig) (x : A) :
  field config = Some x ->
  Forall (fun c => field c = None) after ->
  field (fold_left mergeInto (before ++ config :: after)%list mergedConfig)
  = Some x.
Proof.
  intros Hset Hafter. rewrite fold_left_app. simpl.
  by rewrite fold_mergeInto_unset, field_mergeInto, Hset.
Qed.

End Field.

(** C8: the directory merge replaces whole fields and the last file wins.
    When every listed file loads, the merged configuration holds, for the
    policy and for the restrictions, exactly the record of the last file
    that sets the field; in particular of two files that both set the
    policy only the second file's policy (and so only its rules) remains. *)
Theorem LoadConfigFromDir_last_file_wins (dir : string)
    (files : list string) (configs : list ValidationConfig) :
  lists dir files ->
  Forall2 loadsAs files configs ->
  exists merged,
    LoadConfigFromDir ReadFile Unmarshal Glob Join dir = Ok merged
    /\ (forall before config after p,
           configs = (before ++ config :: after)%list ->
           Policy config = Some p ->
           Forall (fun c => Policy c = None) after ->
           Policy merged = Some p)
    /\ (forall before config after r,
           configs = (before ++ config :: after)%list ->
           Restrictions config = Some r ->
           Forall (fun c => Restrictions c = None) after ->
           Restrictions merged = Some r)
    /\ (forall first second p1 p2,
           configs = [first; second] ->
           Policy first = Some p1 ->
           Policy second = Some p2 ->
           Policy merged = Some p2).
Proof.
  intros Hlist Hload. eexists. split; [by eapply LoadConfigFromDir_fold |].
  split; [| split].
  - intros before config after p -> Hp Hafter.
    by apply (fold_mergeInto_last_set Policy).
  - intros before config after r -> Hr Hafter.
    by apply (fold_mergeInto_last_set Restrictions).
  - intros first second p1 p2 -> _ Hp2. simpl. by rewrite Hp2.
Qed.

End DirectoryMerge.

Lemma LoadConfigFromDir_last_file_wins_witness :
  let subject := {| Policy.Kind := "User"; Policy.Name := "developer" |} in
  let p1 :=
    {| Policy.DefaultDeny := true;
       Policy.Rules :=
         [{| Policy.Namespaces := ["dev-*"]; Policy.Plugins := ["*"];
             Policy.Subjects := [subject] |}] |} in
  let p2 :=
    {| Policy.DefaultDeny := false;
       Policy.Rules :=
         [{| Policy.Namespaces := ["production"];
             Policy.Plugins := ["cpu-manager"];
             Policy.Subjects := [subject] |}] |} in
  let onlyPolicy p :=
    {| Config.Policy := Some p; Config.Restrictions := None;
       Config.EnableDefaultValidator := false;
       Config.DefaultValidatorConfig := None |} in
  let ReadFile := fun path : string => Ok path in
  let Unmarshal := fun data : string =>
    if String.eqb data "/etc/nri/10-a.yaml"
    then Ok (onlyPolicy p1) else Ok (onlyPolicy p2) in
  let Glob := fun pattern : string =>
    if String.eqb pattern "/etc/nri/*.yaml"
    then Ok ["/etc/nri/10-a.yaml"; "/etc/nri/20-b.yaml"] else Ok [] in
  let Join := fun dir file : string => dir +:+ "/" +:+ file in
  exists merged,
    Config.LoadConfigFromDir ReadFile Unmarshal Glob Join "/etc/nri"
    = Ok merged
    /\ Config.Policy merged = Some p2.
Proof.
  intros subject p1 p2 onlyPolicy ReadFile Unmarshal Glob Join.
  destruct (LoadConfigFromDir_last_file_wins ReadFile Unmarshal Glob Join
              "/etc/nri" ["/etc/nri/10-a.yaml"; "/etc/nri/20-b.yaml"]
              [onlyPolicy p1; onlyPolicy p2])
    as (merged & Hload & _ & _ & Htwo).
  - split; [discriminate | left; reflexivity].
  - repeat constructor.
  - exists merged. split; [exact Hload |].
    exact (Htwo (onlyPolicy p1) (onlyPolicy p2) p1 p2
                eq_refl eq_refl eq_refl).
Defined.

(** ** Configuration: structural validation of the policy *)

Section PolicyValidation.
Import Config.

Lemma length_eqb_0 {A : Type} (l : list A) :
  (length l =? 0)%nat = true <-> l = [].
Proof. destruct l; simpl; split; done. Qed.

Lemma validKinds_found (kind : string) :
  existsb (String.eqb kind) validKinds = true
  <-> kind ∈ ["User"; "Group"; "ServiceAccount"].
Proof.
  rewrite existsb_elem_of. split.
  - by intros (k & Hin & ->%String.eqb_eq).
  - intros Hin. exists kind. split; [done | apply String.eqb_refl].
Qed.

(** The three checks on one subject, as the loop body performs them. *)
Lemma subject_checks (subject : Policy.PolicySubject) :
  String.eqb (Policy.Kind subject) "" = false
  /\ String.eqb (Policy.Name subject) "" = false
  /\ existsb (String.eqb (Policy.Kind subject)) validKinds = true
  <-> Spec.subjectValid subject.
Proof.
  unfold Spec.subjectValid.
  by rewrite !String.eqb_neq, validKinds_found.
Qed.

Lemma validateSubjects_None (i j : nat)
    (subjects : list Policy.PolicySubject) :
  validateSubjects i j subjects = None <-> Forall Spec.subjectValid subjects.
Proof.
  revert j. induction subjects as [|subject rest IH]; intros j; cbn [validateSubjects].
  - split; [constructor | done].
  - rewrite Forall_cons, <- subject_checks, <- (IH (S j)).
    destruct (String.eqb (Policy.Kind subject) "");
      [split; [done | by intros [[? _] _]] |].
    destruct (String.eqb (Policy.Name subject) "");
      [split; [done | by intros [(_ & ? & _) _]] |].
    destruct (existsb _ validKinds); cbn [negb];
      [intuition | split; [done | by intros [(_ & _ & ?) _]]].
Qed.

Lemma validateSubjects_Some (i j : nat)
    (subjects : list Policy.PolicySubject) (err : error) :
  validateSubjects i j subjects = Some err ->
  exists k subject rest,
    subjects !! k = Some subject
    /\ ~ Spec.subjectValid subject
    /\ err = "rule " +:+ itoa i +:+ ", subject " +:+ itoa (j + k) +:+ rest.
Proof.
  revert j. induction subjects as [|subject rest IH]; intros j; cbn [validateSubjects];
    [done |].
  assert (forall text,
    ~ Spec.subjectValid subject ->
    Some ("rule " +:+ itoa i +:+ ", subject " +:+ itoa j +:+ text) = Some err ->
    exists k s r, (subject :: rest) !! k = Some s /\ ~ Spec.subjectValid s
      /\ err = "rule " +:+ itoa i +:+ ", subject " +:+ itoa (j + k) +:+ r)
    as Hhere.
  { intros text Hbad [= <-]. exists 0%nat, subject, text.
    by rewrite Nat.add_0_r. }
  destruct (String.eqb (Policy.Kind subject) "") eqn:Hk.
  { apply Hhere. rewrite <- subject_checks, Hk. by intros [? _]. }
  destruct (String.eqb (Policy.Name subject) "") eqn:Hn.
  { apply Hhere. rewrite <- subject_checks, Hn. by intros (_ & ? & _). }
  destruct (existsb _ validKinds) eqn:Hf; cbn [negb].
  - intros (k & s & r & Hl & Hbad & ->)%IH.
    exists (S k), s, r. split; [done |]. split; [done |].
    by rewrite Nat.add_succ_r.
  - apply Hhere. rewrite <- subject_checks, Hf. by intros (_ & _ & ?).
Qed.

(** The checks on one rule, as the loop body performs them. *)
Lemma rule_checks (i : nat) (rule : Policy.PolicyRule) :
  (length (Policy.Namespaces rule) =? 0)%nat = false
  /\ (length (Policy.Plugins rule) =? 0)%nat = false
  /\ (length (Policy.Subjects rule) =? 0)%nat = false
  /\ validateSubjects i 0 (Policy.Subjects rule) = None
  <-> Spec.ruleValid rule.
Proof.
  unfold Spec.ruleValid.
  rewrite validateSubjects_None, <- !not_true_iff_false, !length_eqb_0.
  done.
Qed.

Lemma validateRules_None (i : nat) (rules : list Policy.PolicyRule) :
  validateRules i rules = None <-> Forall Spec.ruleValid rules.
Proof.
  revert i. induction rules as [|rule rest IH]; intros i; cbn [validateRules].
  - split; [constructor | done].
  - rewrite Forall_cons, <- (rule_checks i), <- (IH (S i)).
    destruct (length (Policy.Namespaces rule) =? 0)%nat;
      [split; [done | by intros [[? _] _]] |].
    destruct (length (Policy.Plugins rule) =? 0)%nat;
      [split; [done | by intros [(_ & ? & _) _]] |].
    destruct (length (Policy.Subjects rule) =? 0)%nat;
      [split; [done | by intros [(_ & _ & ? & _) _]] |].
    destruct (validateSubjects i 0 (Policy.Subjects rule));
      [split; [done | by intros [(_ & _ & _ & ?) _]] | intuition].
Qed.

Lemma validateRules_Some (i : nat) (rules : list Policy.PolicyRule)
    (err : error) :
  validateRules i rules = Some err ->
  exists k rule detail,
    rules !! k = Some rule
    /\ ~ Spec.ruleValid rule
    /\ err = "rule " +:+ itoa (i + k) +:+ detail
    /\ Spec.subjectTagged rule detail.
Proof.
  revert i. induction rules as [|rule rest IH]; intros i; cbn [validateRules]; [done |].
  assert (forall text,
    ~ Spec.ruleValid rule -> Spec.subjectTagged rule text ->
    Some ("rule " +:+ itoa i +:+ text) = Some err ->
    exists k r d, (rule :: rest) !! k = Some r /\ ~ Spec.ruleValid r
      /\ err = "rule " +:+ itoa (i + k) +:+ d /\ Spec.subjectTagged r d)
    as Hhere.
  { intros text Hbad Htag [= <-]. exists 0%nat, rule, text.
    by rewrite Nat.add_0_r. }
  destruct (length (Policy.Namespaces rule) =? 0)%nat eqn:Hns.
  { apply Hhere.
    - rewrite <- (rule_checks i), Hns. by intros [? _].
    - intros Hne. by apply length_eqb_0 in Hns. }
  destruct (length (Policy.Plugins rule) =? 0)%nat eqn:Hpl.
  { apply Hhere.
    - rewrite <- (rule_checks i), Hpl. by intros (_ & ? & _).
    - intros _ Hne. by apply length_eqb_0 in Hpl. }
  destruct (length (Policy.Subjects rule) =? 0)%nat eqn:Hsu.
  { apply Hhere.
    - rewrite <- (rule_checks i), Hsu. by intros (_ & _ & ? & _).
    - intros _ _ Hne. by apply length_eqb_0 in Hsu. }
  destruct (validateSubjects i 0 (Policy.Subjects rule)) as [e|] eqn:Hsub.
  - intros [= <-].
    destruct (validateSubjects_Some _ _ _ _ Hsub)
      as (j & subject & text & Hl & Hbad & ->).
    exists 0%nat, rule, (", subject " +:+ itoa j +:+ text).
    split; [done |]. split.
    { rewrite <- (rule_checks i), Hsub. by intros (_ & _ & _ & ?). }
    rewrite Nat.add_0_r. split; [done |].
    intros _ _ _. by exists j, subject, text.
  - intros (k & r & d & Hl & Hbad & -> & Htag)%IH.
    exists (S k), r, d. by rewrite Nat.add_succ_r.
Qed.

(** C9: [ValidateConfig] refuses every configuration whose policy holds a
    rule with an empty namespaces, plugins or subjects list, or with a
    subject of empty kind, empty name or unknown kind; the error names the
    index of such a rule and, where the fault is in a subject, the index of
    such a subject.  A policy whose rules all satisfy the constraints
    passes [validatePolicy] without error. *)
Theorem ValidateConfig_rejects_invalid_policy
    (config : ValidationConfig) (policy : Policy.NRIValidationPolicySpec) :
  Policy config = Some policy ->
  ((exists rule, rule ∈ Policy.Rules policy /\ ~ Spec.ruleValid rule) ->
   exists i rule detail,
     Policy.Rules policy !! i = Some rule
     /\ ~ Spec.ruleValid rule
     /\ ValidateConfig (Some config)
        = Some ("invalid policy: rule " +:+ itoa i +:+ detail)
     /\ Spec.subjectTagged rule detail)
  /\ (Forall Spec.ruleValid (Policy.Rules policy) ->
      validatePolicy policy = None).
Proof.
  intros Hpolicy. split.
  - intros (bad & Hin & Hbad).
    unfold ValidateConfig. rewrite Hpolicy. unfold validatePolicy.
    destruct (validateRules 0 (Policy.Rules policy)) as [err|] eqn:Hv.
    + apply validateRules_Some in Hv as (k & rule & detail & Hl & Hr & -> & Ht).
      by exists k, rule, detail.
    + apply validateRules_None in Hv.
      rewrite Forall_forall in Hv. by destruct (Hbad (Hv bad Hin)).
  - intros Hall. by apply validateRules_None.
Qed.

(** The configurations of [TestConfigValidation]: the valid one, and the
    one whose only rule has lost its namespaces. *)
Example ValidateConfig_test_configs :
  let rule namespaces :=
    {| Policy.Namespaces := namespaces; Policy.Plugins := ["test-plugin"];
       Policy.Subjects :=
         [{| Policy.Kind := "User"; Policy.Name := "test-user" |}] |} in
  let config namespaces :=
    {| Policy :=
         Some {| Policy.DefaultDeny := false;
                 Policy.Rules := [rule namespaces] |};
       Restrictions :=
         Some {| Restrictions.DefaultAction := Restrictions.RestrictionAllow;
                 Restrictions.GlobalRestrictions := [];
                 Restrictions.PluginRestrictions := [];
                 Restrictions.GlobalPodRestrictions := [] |};
       EnableDefaultValidator := true;
       DefaultValidatorConfig := None |} in
  ValidateConfig (Some (config ["test"])) = None
  /\ ValidateConfig (Some (config []))
     = Some "invalid policy: rule 0: namespaces cannot be empty".
Proof. split; reflexivity. Qed.

Lemma ValidateConfig_rejects_invalid_policy_witness :
  let subject := {| Policy.Kind := "User"; Policy.Name := "test-user" |} in
  let rule namespaces :=
    {| Policy.Namespaces := namespaces; Policy.Plugins := ["test-plugin"];
       Policy.Subjects := [subject] |} in
  let policy namespaces :=
    {| Policy.DefaultDeny := false; Policy.Rules := [rule namespaces] |} in
  let config namespaces :=
    {| Policy := Some (policy namespaces); Restrictions := None;
       EnableDefaultValidator := true; DefaultValidatorConfig := None |} in
  (exists i r detail,
      Policy.Rules (policy []) !! i = Some r
      /\ ~ Spec.ruleValid r
      /\ ValidateConfig (Some (config []))
         = Some ("invalid policy: rule " +:+ itoa i +:+ detail)
      /\ Spec.subjectTagged r detail)
  /\ validatePolicy (policy ["test"]) = None.
Proof.
  intros subject rule policy config. split.
  - apply (proj1 (ValidateConfig_rejects_invalid_policy
                    (config []) (policy []) eq_refl)).
    exists (rule []). split; [left |]. intros [Hns _]. by apply Hns.
  - apply (proj2 (ValidateConfig_rejects_invalid_policy
                    (config ["test"]) (policy ["test"]) eq_refl)).
    repeat constructor; try discriminate.
Defined.

End PolicyValidation.

(** * Further properties of the engines and of their callers *)

(** ** Error plumbing *)

Section ErrorPlumbing.

Lemma is_Some_wrap (a b : option error) (wrap : error -> error) :
  is_Some (match a with Some err => Some (wrap err) | None => b end)
  <-> is_Some a \/ is_Some b.
Proof.
  destruct a as [err|]; split; eauto.
  - intros [[? [=]] | H]; done.
Qed.

Lemma not_is_Some_None {A : Type} (o : option A) : ~ is_Some o -> o = None.
Proof. destruct o; [intros H; destruct H; eauto | done]. Qed.

Lemma forEach_None {A : Type} (body : A -> option error) (l : list A) :
  forEach body l = None <-> forall x, x ∈ l -> body x = None.
Proof.
  split.
  - intros Hnone x Hx. apply not_is_Some_None. intros Hsome.
    assert (is_Some (forEach body l)) as [e He]
      by (apply forEach_is_Some; eauto).
    congruence.
  - intros Hall. apply not_is_Some_None.
    intros (x & Hx & [e He])%forEach_is_Some. rewrite (Hall x Hx) in He.
    discriminate.
Qed.

End ErrorPlumbing.

(** ** Pod selectors and pod restrictions *)

Section PodRestrictions.
Import Restrictions.

Lemma guarded_existsb {A : Type} (f : A -> bool) (l : list A) :
  (if (0 <? length l)%nat then existsb f l else true) = true
  <-> l = [] \/ exists x, x ∈ l /\ f x = true.
Proof.
  destruct l as [|a l].
  - simpl. split; auto.
  - change (0 <? length (a :: l))%nat with true. cbv iota.
    rewrite existsb_elem_of. split; [auto | by intros [? | ?]].
Qed.

Lemma guarded_labels (selectorLabels podLabels : gmap string string) :
  (if (0 <? size selectorLabels)%nat
   then forallb (fun kv => bool_decide (podLabels !! kv.1 = Some kv.2))
                (map_to_list selectorLabels)
   else true) = true
  <-> forall key value,
      selectorLabels !! key = Some value -> podLabels !! key = Some value.
Proof.
  destruct (0 <? size selectorLabels)%nat eqn:Hsize.
  - rewrite forallb_forall. split.
    + intros H key value Hl.
      apply elem_of_map_to_list, list_elem_of_In, H in Hl.
      by apply bool_decide_eq_true in Hl.
    + intros H [key value] Hin. apply bool_decide_eq_true. simpl.
      by apply H, elem_of_map_to_list, list_elem_of_In.
  - apply Nat.ltb_ge in Hsize.
    assert (selectorLabels = ∅) as -> by (apply map_size_empty_inv; lia).
    split; [| done]. intros _ key value Hl. by rewrite lookup_empty in Hl.
Qed.

(** X1: [podMatches] is the conjunction of three conditions, each void
    when its selector field is empty: some namespace pattern matches the
    pod namespace, every selector label is on the pod with the same value,
    some name pattern matches the pod name. *)
Theorem podMatches_selects (selector : PodSelector) (pod : Api.PodSandbox) :
  podMatches selector pod = true <-> Shape.selects selector pod.
Proof.
  unfold podMatches, Shape.selects, Api.GetNamespace, Api.GetName,
    Api.GetLabels.
  rewrite !andb_true_iff, !guarded_existsb, guarded_labels. tauto.
Qed.

(** X2: a pod restriction fails iff it is an allowlist and its selector
    does not select the pod, or a denylist and its selector selects it; a
    restriction whose action is neither ["allow"] nor ["deny"] never
    fails. *)
Theorem checkPodRestriction_fails_iff (restriction : PodRestriction)
    (pod : Api.PodSandbox) :
  is_Some (checkPodRestriction restriction pod)
  <-> (PodRestriction_Action restriction = RestrictionAllow
       /\ ~ Shape.selects (Selector restriction) pod)
      \/ (PodRestriction_Action restriction = RestrictionDeny
          /\ Shape.selects (Selector restriction) pod).
Proof.
  unfold checkPodRestriction. rewrite <- podMatches_selects.
  destruct (String.eqb_spec (PodRestriction_Action restriction)
                            RestrictionAllow) as [Ha|Ha].
  - rewrite Ha.
    destruct (podMatches (Selector restriction) pod); simpl; split.
    + by intros [? ?].
    + intros [[_ H] | [[=] _]]. by destruct H.
    + intros _. left. split; [done | discriminate].
    + eauto.
  - destruct (String.eqb_spec (PodRestriction_Action restriction)
                              RestrictionDeny) as [Hd|Hd].
    + destruct (podMatches (Selector restriction) pod); simpl; split.
      * intros _. by right.
      * eauto.
      * by intros [? ?].
      * intros [[? _] | [_ ?]]; done.
    + split; [by intros [? ?] | intros [[? _] | [? _]]; done].
Qed.

(** X3: [findPluginRestrictions] keeps, in the order of the configuration,
    exactly the plugin restrictions whose pattern matches the plugin
    name. *)
Theorem findPluginRestrictions_spec (rv : RestrictionsValidator)
    (pluginName : string) :
  findPluginRestrictions rv pluginName
    `sublist_of` PluginRestrictions (config rv)
  /\ forall pr,
      pr ∈ findPluginRestrictions rv pluginName
      <-> pr ∈ PluginRestrictions (config rv)
          /\ globMatch (PluginPattern pr) pluginName = true.
Proof.
  unfold findPluginRestrictions. split.
  - induction (PluginRestrictions (config rv)) as [|pr l IH]; simpl;
      [constructor |].
    destruct (globMatch (PluginPattern pr) pluginName);
      by constructor.
  - intros pr. by rewrite !list_elem_of_In, filter_In.
Qed.

End PodRestrictions.

(** ** Capability extractor *)

Section Extractor.
Import Restrictions.

Lemma sublist_appendIf (cond : bool) (c : MutationCapability)
    (l before : list MutationCapability) :
  l `sublist_of` before -> appendIf cond c l `sublist_of` (before ++ [c])%list.
Proof.
  intros H. unfold appendIf. destruct cond.
  - by apply sublist_app.
  - by apply sublist_inserts_r.
Qed.

Lemma sublist_snoc (c : MutationCapability)
    (l before : list MutationCapability) :
  l `sublist_of` before -> (l ++ [c])%list `sublist_of` (before ++ [c])%list.
Proof. intros H. by apply sublist_app. Qed.

Lemma extract_sublist_reportable (adjust : option Api.ContainerAdjustment) :
  extractMutationCapabilities adjust `sublist_of` Shape.reportable.
Proof.
  destruct adjust as [adjust|]; [| apply sublist_nil_l].
  unfold extractMutationCapabilities.
  set (common :=
         appendIf (nonEmpty (Api.Rlimits adjust)) MutationRlimits
           (appendIf (isSome (Api.Hooks_ adjust)) MutationHooks
              (appendIf (nonEmpty (Api.Env adjust)) MutationEnv
                 (appendIf (nonEmpty (Api.Args adjust)) MutationArgs
                    (appendIf (nonEmpty (Api.Mounts adjust)) MutationMounts
                       (appendIf (nonEmptyMap (Api.Annotations adjust))
                                 MutationAnnotations [])))))).
  assert (common `sublist_of`
            [MutationAnnotations; MutationMounts; MutationArgs; MutationEnv;
             MutationHooks; MutationRlimits]) as Hcommon.
  { unfold common.
    apply (sublist_appendIf _ _ _ [_; _; _; _; _]).
    apply (sublist_appendIf _ _ _ [_; _; _; _]).
    apply (sublist_appendIf _ _ _ [_; _; _]).
    apply (sublist_appendIf _ _ _ [_; _]).
    apply (sublist_appendIf _ _ _ [_]).
    apply (sublist_appendIf _ _ _ []). constructor. }
  destruct (Api.Linux adjust) as [linux|].
  2: { by apply (sublist_inserts_r [_; _; _; _; _; _; _; _] _ [_; _; _; _; _; _]). }
  apply (sublist_appendIf _ _ _ [_; _; _; _; _; _; _; _; _; _; _; _; _]).
  assert (appendIf (nonEmpty (Api.Devices linux)) MutationDevices common
            `sublist_of`
            [MutationAnnotations; MutationMounts; MutationArgs; MutationEnv;
             MutationHooks; MutationRlimits; MutationDevices]) as Hdev
    by by apply (sublist_appendIf _ _ _ [_; _; _; _; _; _]).
  destruct (Api.Resources linux) as [resources|].
  2: { by apply (sublist_inserts_r [_; _; _; _; _; _] _ [_; _; _; _; _; _; _]). }
  apply (sublist_appendIf _ _ _ [_; _; _; _; _; _; _; _; _; _; _; _]).
  apply (sublist_appendIf _ _ _ [_; _; _; _; _; _; _; _; _; _; _]).
  apply (sublist_appendIf _ _ _ [_; _; _; _; _; _; _; _; _; _]).
  apply (sublist_appendIf _ _ _ [_; _; _; _; _; _; _; _; _]).
  apply (sublist_appendIf _ _ _ [_; _; _; _; _; _; _; _]).
  by apply (sublist_snoc _ _ [_; _; _; _; _; _; _]).
Qed.

(** X4: the extractor reports capabilities in one fixed order and each at
    most once: its result is a subsequence of annotations, mounts, args,
    env, hooks, rlimits, devices, resources, memory, cpu, blockio, rdt,
    unified, namespaces, and every member of it is a capability that the
    configuration validator accepts. *)
Theorem extract_ordered_without_duplicates
    (adjust : option Api.ContainerAdjustment) :
  extractMutationCapabilities adjust `sublist_of` Shape.reportable
  /\ NoDup (extractMutationCapabilities adjust)
  /\ forall cap, cap ∈ extractMutationCapabilities adjust ->
                 cap ∈ Config.validCapabilities.
Proof.
  pose proof (extract_sublist_reportable adjust) as Hsub.
  split; [done |]. split.
  - refine (sublist_NoDup _ _ _ Hsub).
    apply (bool_decide_unpack (NoDup (Shape.reportable : list string))).
    by vm_compute.
  - intros cap Hcap.
    assert (cap ∈ Shape.reportable) as Hin
      by (by eapply elem_of_sublist).
    pose proof
      (bool_decide_unpack
         (Forall (fun c : string =>
                    c ∈ (Config.validCapabilities : list string))
                 (Shape.reportable : list string)) I) as Hall.
    exact (proj1 (Forall_forall _ _) Hall cap Hin).
Qed.

Lemma resources_reported (adjust : Api.ContainerAdjustment)
    (linux : Api.LinuxContainerAdjustment) (resources : Api.LinuxResources) :
  Api.Linux adjust = Some linux ->
  Api.Resources linux = Some resources ->
  MutationResources ∈ extractMutationCapabilities (Some adjust).
Proof.
  intros Hl Hr. unfold extractMutationCapabilities. rewrite Hl, Hr.
  repeat (rewrite elem_of_appendIf || rewrite elem_of_app
          || rewrite list_elem_of_singleton).
  tauto.
Qed.

(** X5: the specific resource capabilities never come without the generic
    one: when the extractor reports memory, cpu, blockio, rdt or unified,
    it reports resources as well. *)
Theorem extract_specific_implies_resources
    (adjust : option Api.ContainerAdjustment) (cap : MutationCapability) :
  cap ∈ [MutationMemory; MutationCPU; MutationBlockIO; MutationRDT;
         MutationUnified] ->
  cap ∈ extractMutationCapabilities adjust ->
  MutationResources ∈ extractMutationCapabilities adjust.
Proof.
  intros Hcap Hin.
  destruct adjust as [adjust|]; [| by apply elem_of_nil in Hin].
  destruct (Api.Linux adjust) as [linux|] eqn:Hl;
    [destruct (Api.Resources linux) as [resources|] eqn:Hr |].
  - by eapply resources_reported.
  - exfalso. revert Hin. unfold extractMutationCapabilities. rewrite Hl, Hr.
    repeat (rewrite elem_of_appendIf || rewrite elem_of_app
            || rewrite list_elem_of_singleton || rewrite elem_of_nil).
    repeat (apply elem_of_cons in Hcap as [-> | Hcap]);
      [.. | by apply elem_of_nil in Hcap];
      unfold MutationAnnotations, MutationMounts, MutationArgs, MutationEnv,
        MutationHooks, MutationRlimits, MutationDevices, MutationNamespaces,
        MutationMemory, MutationCPU, MutationBlockIO, MutationRDT,
        MutationUnified; intuition discriminate.
  - exfalso. revert Hin. unfold extractMutationCapabilities. rewrite Hl.
    repeat (rewrite elem_of_appendIf || rewrite elem_of_app
            || rewrite list_elem_of_singleton || rewrite elem_of_nil).
    repeat (apply elem_of_cons in Hcap as [-> | Hcap]);
      [.. | by apply elem_of_nil in Hcap];
      unfold MutationAnnotations, MutationMounts, MutationArgs, MutationEnv,
        MutationHooks, MutationRlimits, MutationDevices, MutationNamespaces,
        MutationMemory, MutationCPU, MutationBlockIO, MutationRDT,
        MutationUnified; intuition discriminate.
Qed.

Lemma extract_specific_implies_resources_witness :
  let adjust :=
    Some {| Api.Annotations := ∅; Api.Mounts := []; Api.Args := [];
            Api.Env := []; Api.Hooks_ := None; Api.Rlimits := [];
            Api.Linux :=
              Some {| Api.Devices := [];
                      Api.Resources :=
                        Some {| Api.Memory := None;
                                Api.Cpu :=
                                  Some {| Api.Shares := Some 512%N;
                                          Api.Cpus := "0-3";
                                          Api.Mems := "" |};
                                Api.BlockioClass := None;
                                Api.RdtClass := None; Api.Unified := ∅ |};
                      Api.Namespaces := []; Api.SeccompPolicy := None |}
         |} in
  MutationCPU ∈ extractMutationCapabilities adjust
  /\ MutationResources ∈ extractMutationCapabilities adjust.
Proof.
  intros adjust.
  assert (MutationCPU ∈ extractMutationCapabilities adjust) as Hcpu.
  { vm_compute. by repeat constructor. }
  split; [exact Hcpu |].
  refine (extract_specific_implies_resources adjust MutationCPU _ Hcpu).
  by repeat constructor.
Defined.

(** X6: an allowlist that does not list resources refuses every adjustment
    with a Linux resources block, whatever else it lists: an allowlist of
    memory alone refuses a change of memory alone. *)
Theorem allowlist_without_resources_refuses
    (adjust : Api.ContainerAdjustment)
    (linux : Api.LinuxContainerAdjustment) (resources : Api.LinuxResources)
    (capabilities : list MutationCapability) :
  Api.Linux adjust = Some linux ->
  Api.Resources linux = Some resources ->
  MutationResources ∉ capabilities ->
  is_Some (checkMutationRestriction
             {| Action := RestrictionAllow; Capabilities := capabilities |}
             (extractMutationCapabilities (Some adjust))).
Proof.
  intros Hl Hr Hnot. unfold checkMutationRestriction.
  change (String.eqb RestrictionAllow RestrictionAllow) with true. cbv iota.
  apply forEach_is_Some. exists MutationResources.
  split; [by eapply resources_reported |].
  apply slicesContains_false in Hnot. simpl Capabilities. rewrite Hnot.
  simpl. eauto.
Qed.

Lemma allowlist_without_resources_refuses_witness :
  let resources :=
    {| Api.Memory := Some {| Api.Limit := Some 1048576%Z; Api.Swap := None |};
       Api.Cpu := None; Api.BlockioClass := None; Api.RdtClass := None;
       Api.Unified := ∅ |} in
  let linux :=
    {| Api.Devices := []; Api.Resources := Some resources;
       Api.Namespaces := []; Api.SeccompPolicy := None |} in
  let adjust :=
    {| Api.Annotations := ∅; Api.Mounts := []; Api.Args := [];
       Api.Env := []; Api.Hooks_ := None; Api.Rlimits := [];
       Api.Linux := Some linux |} in
  is_Some (checkMutationRestriction
             {| Action := RestrictionAllow;
                Capabilities := [MutationMemory] |}
             (extractMutationCapabilities (Some adjust))).
Proof.
  intros resources linux adjust.
  apply (allowlist_without_resources_refuses adjust linux resources
           [MutationMemory] eq_refl eq_refl).
  intros H. apply list_elem_of_singleton in H. discriminate H.
Defined.

(** X7: a denylist made only of capabilities that the extractor cannot
    report (seccomp, or any name outside the fourteen reportable ones)
    never refuses an adjustment. *)
Theorem denylist_of_unreportable_never_refuses
    (adjust : option Api.ContainerAdjustment)
    (capabilities : list MutationCapability) :
  (forall cap, cap ∈ capabilities -> cap ∉ Shape.reportable) ->
  checkMutationRestriction
    {| Action := RestrictionDeny; Capabilities := capabilities |}
    (extractMutationCapabilities adjust) = None.
Proof.
  intros Hout. unfold checkMutationRestriction.
  change (String.eqb RestrictionDeny RestrictionAllow) with false.
  change (String.eqb RestrictionDeny RestrictionDeny) with true. cbv iota.
  apply forEach_None. intros cap Hcap. simpl Capabilities.
  destruct (slicesContains capabilities cap) eqn:Hc; [| done].
  apply slicesContains_true in Hc. destruct (Hout cap Hc).
  eapply elem_of_sublist; [exact Hcap | apply extract_sublist_reportable].
Qed.

Lemma denylist_of_unreportable_never_refuses_witness :
  let adjust :=
    Some {| Api.Annotations := ∅; Api.Mounts := []; Api.Args := [];
            Api.Env := []; Api.Hooks_ := None; Api.Rlimits := [];
            Api.Linux :=
              Some {| Api.Devices := []; Api.Resources := None;
                      Api.Namespaces :=
                        [{| Api.Type_ := "pid";
                            Api.Namespace_Path := "/proc/1/ns/pid" |}];
                      Api.SeccompPolicy := None |} |} in
  checkMutationRestriction
    {| Action := RestrictionDeny; Capabilities := [MutationSeccomp] |}
    (extractMutationCapabilities adjust) = None.
Proof.
  intros adjust.
  apply (denylist_of_unreportable_never_refuses adjust [MutationSeccomp]).
  intros cap Hcap. apply list_elem_of_singleton in Hcap. subst cap.
  apply (bool_decide_unpack
           (("seccomp" : string) ∉ (Shape.reportable : list string))).
  by vm_compute.
Defined.

End Extractor.

(** ** Verdict of the restrictions engine *)

Section RestrictionsVerdict.
Import Restrictions.

Variable pluginNames : Api.ValidateContainerAdjustmentRequest -> list string.

Lemma is_Some_orelse (a b : option error) :
  is_Some (match a with Some err => Some err | None => b end)
  <-> is_Some a \/ is_Some b.
Proof. apply (is_Some_wrap a b (fun err => err)). Qed.

Lemma matching_restrictions_fail {R : Type} (rv : RestrictionsValidator)
    (pluginName : string) (inner : PluginRestriction -> list R)
    (check : R -> option error) :
  is_Some (forEach (fun pr => forEach check (inner pr))
                   (findPluginRestrictions rv pluginName))
  <-> exists pr r,
      pr ∈ PluginRestrictions (config rv)
      /\ globMatch (PluginPattern pr) pluginName = true
      /\ r ∈ inner pr /\ is_Some (check r).
Proof.
  rewrite forEach_is_Some. split.
  - intros (pr & Hpr & (r & Hr & Hf)%forEach_is_Some).
    apply findPluginRestrictions_spec in Hpr as [Hin Hm]. by exists pr, r.
  - intros (pr & r & Hin & Hm & Hr & Hf). exists pr. split.
    + by apply findPluginRestrictions_spec.
    + apply forEach_is_Some. eauto.
Qed.

Lemma plugin_refused (rv : RestrictionsValidator) (pluginName : string)
    (req : Api.ValidateContainerAdjustmentRequest) (pod : Api.PodSandbox) :
  is_Some (validatePluginMutations rv pluginName req)
  \/ is_Some (validatePodAccess rv pluginName pod)
  <-> Shape.refuses (config rv)
        (extractMutationCapabilities (Api.Adjust req)) pod pluginName.
Proof.
  unfold validatePluginMutations, validatePodAccess, Shape.refuses,
    Shape.mutationFails, Shape.podFails.
  cbv zeta. set (caps := extractMutationCapabilities (Api.Adjust req)).
  rewrite !is_Some_orelse.
  rewrite (matching_restrictions_fail rv pluginName MutationRestrictions
             (fun r => checkMutationRestriction r caps)).
  rewrite (matching_restrictions_fail rv pluginName PodRestrictions
             (fun r => checkPodRestriction r pod)).
  rewrite !forEach_is_Some. tauto.
Qed.

(** X8: once the pod is there, the restrictions engine refuses a request
    iff for some plugin name of the request a global mutation restriction,
    a global pod restriction, or a mutation or pod restriction of a plugin
    restriction whose pattern matches that name fails.  So whether the
    request is refused does not depend on the order in which the plugin
    map is visited. *)
Theorem restrictions_refuse_iff (rv : RestrictionsValidator)
    (req : Api.ValidateContainerAdjustmentRequest) (pod : Api.PodSandbox) :
  Api.Pod req = Some pod ->
  (is_Some (ValidateContainerAdjustment pluginNames rv req)
   <-> exists pluginName,
       pluginName ∈ pluginNames req
       /\ Shape.refuses (config rv)
            (extractMutationCapabilities (Api.Adjust req)) pod pluginName)
  /\ forall otherOrder : Api.ValidateContainerAdjustmentRequest
                         -> list string,
      (forall name, name ∈ pluginNames req <-> name ∈ otherOrder req) ->
      (is_Some (ValidateContainerAdjustment pluginNames rv req)
       <-> is_Some (ValidateContainerAdjustment otherOrder rv req)).
Proof.
  intros Hpod.
  assert (forall names : Api.ValidateContainerAdjustmentRequest -> list string,
    is_Some (ValidateContainerAdjustment names rv req)
    <-> exists pluginName,
        pluginName ∈ names req
        /\ Shape.refuses (config rv)
             (extractMutationCapabilities (Api.Adjust req)) pod pluginName)
    as Hiff.
  { intros names. unfold ValidateContainerAdjustment, Api.GetPod.
    rewrite Hpod, forEach_is_Some.
    split; intros (name & Hin & H); exists name; (split; [done |]).
    - apply plugin_refused.
      apply is_Some_wrap in H as [H | H]; [by left | right].
      by apply is_Some_wrap in H as [H | [? [=]]].
    - apply is_Some_wrap. apply plugin_refused in H as [H | H]; [by left |].
      right. apply is_Some_wrap. by left. }
  split; [apply Hiff |].
  intros otherOrder Hsame. rewrite !Hiff.
  split; intros (name & Hin & H); exists name; (split; [| done]);
    by apply Hsame.
Qed.

(** X9: when a global mutation restriction fails on the capabilities of
    the adjustment, the request is refused for the first plugin visited,
    with an error that names this plugin. *)
Theorem global_restriction_refuses_first_plugin (rv : RestrictionsValidator)
    (req : Api.ValidateContainerAdjustmentRequest) (pod : Api.PodSandbox)
    (pluginName : string) (rest : list string)
    (restriction : MutationRestriction) :
  Api.Pod req = Some pod ->
  pluginNames req = pluginName :: rest ->
  restriction ∈ GlobalRestrictions (config rv) ->
  Shape.mutationFails (extractMutationCapabilities (Api.Adjust req))
                      restriction ->
  exists err,
    ValidateContainerAdjustment pluginNames rv req
    = Some ("plugin " +:+ pluginName +:+ " restricted: " +:+ err).
Proof.
  intros Hpod Hnames Hin Hfail.
  unfold ValidateContainerAdjustment, Api.GetPod. rewrite Hpod, Hnames.
  cbn [forEach].
  assert (is_Some (validatePluginMutations rv pluginName req)) as [err Herr].
  { unfold validatePluginMutations. apply is_Some_orelse. left.
    apply forEach_is_Some. eauto. }
  rewrite Herr. eauto.
Qed.

End RestrictionsVerdict.

Lemma restrictions_refuse_iff_witness :
  let rv :=
    Restrictions.NewRestrictionsValidator
      {| Restrictions.DefaultAction := Restrictions.RestrictionAllow;
         Restrictions.GlobalRestrictions := [];
         Restrictions.PluginRestrictions := [];
         Restrictions.GlobalPodRestrictions :=
           [{| Restrictions.PodRestriction_Action :=
                 Restrictions.RestrictionDeny;
               Restrictions.Selector :=
                 {| Restrictions.Namespaces := ["kube-*"];
                    Restrictions.Labels := ∅;
                    Restrictions.Names := [] |} |}] |} in
  let pod :=
    {| Api.Name := "dns"; Api.Namespace := "kube-system";
       Api.Labels := ∅ |} in
  let req :=
    {| Api.Pod := Some pod; Api.Adjust := None;
       Api.Plugins := [{| Api.Plugin_Name := "test-plugin";
                          Api.Plugin_Index := "00" |}] |} in
  is_Some (Restrictions.ValidateContainerAdjustment
             Api.pluginNamesInOrder rv req).
Proof.
  intros rv pod req.
  apply (proj1 (restrictions_refuse_iff Api.pluginNamesInOrder rv req pod
                  eq_refl)).
  exists "test-plugin". split; [by repeat constructor |].
  right; right; left. eexists. split; [by repeat constructor |].
  unfold Shape.podFails. vm_compute. eauto.
Defined.

Lemma global_restriction_refuses_first_plugin_witness :
  let restriction :=
    {| Restrictions.Action := Restrictions.RestrictionDeny;
       Restrictions.Capabilities := [Restrictions.MutationNamespaces] |} in
  let rv :=
    Restrictions.NewRestrictionsValidator
      {| Restrictions.DefaultAction := Restrictions.RestrictionAllow;
         Restrictions.GlobalRestrictions := [restriction];
         Restrictions.PluginRestrictions := [];
         Restrictions.GlobalPodRestrictions := [] |} in
  let pod :=
    {| Api.Name := "test-pod"; Api.Namespace := "test"; Api.Labels := ∅ |} in
  let adjust :=
    {| Api.Annotations := ∅; Api.Mounts := []; Api.Args := [];
       Api.Env := []; Api.Hooks_ := None; Api.Rlimits := [];
       Api.Linux :=
         Some {| Api.Devices := []; Api.Resources := None;
                 Api.Namespaces :=
                   [{| Api.Type_ := "pid";
                       Api.Namespace_Path := "/proc/1/ns/pid" |}];
                 Api.SeccompPolicy := None |} |} in
  let req :=
    {| Api.Pod := Some pod; Api.Adjust := Some adjust;
       Api.Plugins := [{| Api.Plugin_Name := "test-plugin";
                          Api.Plugin_Index := "00" |}] |} in
  exists err,
    Restrictions.ValidateContainerAdjustment Api.pluginNamesInOrder rv req
    = Some ("plugin test-plugin restricted: " +:+ err).
Proof.
  intros restriction rv pod adjust req.
  apply (global_restriction_refuses_first_plugin Api.pluginNamesInOrder
           rv req pod "test-plugin" ["00-test-plugin"] restriction
           eq_refl eq_refl).
  - by repeat constructor.
  - unfold Shape.mutationFails. vm_compute. eauto.
Defined.

(** ** Verdict of the policy engine *)

Section PolicyVerdict.
Import Policy.

Variable pluginNames : Api.ValidateContainerAdjustmentRequest -> list string.

(** X10: the policy decision for one plugin: access is denied iff
    [DefaultDeny] is set and no rule of the policy is both selected by the
    pod namespace and granting.  A policy without [DefaultDeny] denies
    nothing, whatever its rules. *)
Theorem validatePluginAccess_denies_iff (pv : PolicyBasedValidator)
    (ctx : ValidationContext) :
  is_Some (validatePluginAccess pv ctx)
  <-> DefaultDeny (policy pv) = true /\ ~ Shape.granted (policy pv) ctx.
Proof.
  unfold validatePluginAccess, Shape.granted.
  destruct (findMatchingRules pv (PodNamespace ctx)) as [|r l] eqn:Hm.
  - simpl. rewrite deny_iff_DefaultDeny. split; [| tauto].
    intros Hd. split; [done |]. intros (rule & Hin & Hmatch & _).
    assert (rule ∈ findMatchingRules pv (PodNamespace ctx)) as Hsel
      by (by apply elem_of_findMatchingRules).
    rewrite Hm in Hsel. by apply elem_of_nil in Hsel.
  - simpl length. simpl Nat.eqb. cbv iota.
    destruct (existsb _ (r :: l)) eqn:Hex.
    + apply existsb_elem_of in Hex as (g & Hg & Hgrant).
      rewrite <- Hm in Hg.
      apply elem_of_findMatchingRules in Hg as [Hg Hgm].
      apply rule_grants_true in Hgrant.
      split; [by intros [? ?] |]. intros [_ Hno]. destruct Hno. eauto.
    + rewrite deny_iff_DefaultDeny. split; [| tauto].
      intros Hd. split; [done |]. intros (rule & Hin & Hmatch & Hgrant).
      assert (rule ∈ r :: l) as Hsel
        by (rewrite <- Hm; by apply elem_of_findMatchingRules).
      apply rule_grants_true in Hgrant.
      assert (existsb
                (fun rule => pluginAllowed (PluginName ctx) (Plugins rule)
                             && subjectAllowed (Subject ctx) (Subjects rule))
                (r :: l) = true) as Htrue
        by (apply existsb_elem_of; eauto).
      congruence.
Qed.

Lemma validatePlugins_is_Some (pv : PolicyBasedValidator)
    (ctx : ValidationContext) (plugins : list string) :
  is_Some (validatePlugins pv ctx plugins)
  <-> exists name,
      name ∈ plugins
      /\ is_Some (validatePluginAccess pv (setPluginName ctx name)).
Proof.
  revert ctx. induction plugins as [|name rest IH]; intros ctx;
    cbn [validatePlugins].
  - split; [by intros [? ?] | intros (n & Hn & _); by apply elem_of_nil in Hn].
  - rewrite is_Some_wrap, (IH (setPluginName ctx name)). split.
    + intros [H | (n & Hn & H)]; [exists name | exists n];
        (split; [by repeat constructor | done]).
    + intros (n & [-> | Hn]%elem_of_cons & H); [by left | right].
      exists n. by split.
Qed.

Lemma validatePlugins_overwrites (pv : PolicyBasedValidator)
    (ctx : ValidationContext) (name : string) (plugins : list string) :
  validatePlugins pv (setPluginName ctx name) plugins
  = validatePlugins pv ctx plugins.
Proof. by destruct plugins. Qed.

(** X11: the plugin name of the context that the caller passes in has no
    effect: the engine overwrites it with each plugin name of the request
    before it checks access. *)
Theorem policy_ignores_caller_PluginName (pv : PolicyBasedValidator)
    (req : Api.ValidateContainerAdjustmentRequest)
    (ctx : ValidationContext) (name : string) :
  ValidateContainerAdjustment pluginNames pv req
    (Some (setPluginName ctx name))
  = ValidateContainerAdjustment pluginNames pv req (Some ctx).
Proof.
  unfold ValidateContainerAdjustment.
  destruct (Api.GetPod req); [| done].
  by rewrite validatePlugins_overwrites.
Qed.

(** X12: once the pod is there, the policy-based validator refuses a
    request iff its restrictions validator refuses it, or [DefaultDeny] is
    set and for some plugin name of the request no selected rule grants
    access.  Without a restrictions configuration and without
    [DefaultDeny] nothing is refused. *)
Theorem policy_refuses_iff (pv : PolicyBasedValidator)
    (req : Api.ValidateContainerAdjustmentRequest) (pod : Api.PodSandbox)
    (validationCtx : option ValidationContext) :
  Api.Pod req = Some pod ->
  is_Some (ValidateContainerAdjustment pluginNames pv req validationCtx)
  <-> (exists rv,
          restrictionsValidator pv = Some rv
          /\ is_Some (Restrictions.ValidateContainerAdjustment
                        pluginNames rv req))
      \/ (DefaultDeny (policy pv) = true
          /\ exists name,
              name ∈ pluginNames req
              /\ ~ Shape.granted (policy pv)
                     (setPluginName
                        (Shape.effectiveContext validationCtx pod) name)).
Proof.
  intros Hpod. unfold ValidateContainerAdjustment, Api.GetPod.
  rewrite Hpod, is_Some_wrap, validatePlugins_is_Some.
  fold (Shape.effectiveContext validationCtx pod).
  assert (is_Some
            match restrictionsValidator pv with
            | Some rv =>
                Restrictions.ValidateContainerAdjustment pluginNames rv req
            | None => None
            end
          <-> exists rv,
              restrictionsValidator pv = Some rv
              /\ is_Some (Restrictions.ValidateContainerAdjustment
                            pluginNames rv req)) as ->.
  { destruct (restrictionsValidator pv) as [rv|]; split.
    - eauto.
    - by intros (rv' & [= <-] & H).
    - by intros [? ?].
    - by intros (rv' & [=] & _). }
  split; (intros [H | H]; [by left | right]).
  - destruct H as (name & Hin & [Hd Hg]%validatePluginAccess_denies_iff).
    eauto.
  - destruct H as (Hd & name & Hin & Hg). exists name. split; [done |].
    by apply validatePluginAccess_denies_iff.
Qed.

End PolicyVerdict.

Lemma policy_refuses_iff_witness :
  let rule :=
    {| Policy.Namespaces := ["dev-*"]; Policy.Plugins := ["*"];
       Policy.Subjects :=
         [{| Policy.Kind := "User"; Policy.Name := "developer" |}] |} in
  let pv :=
    Policy.NewPolicyBasedValidator
      {| Policy.DefaultDeny := true; Policy.Rules := [rule] |} None in
  let pod :=
    {| Api.Name := "test-pod"; Api.Namespace := "production";
       Api.Labels := ∅ |} in
  let req :=
    {| Api.Pod := Some pod; Api.Adjust := None;
       Api.Plugins := [{| Api.Plugin_Name := "test-plugin";
                          Api.Plugin_Index := "00" |}] |} in
  is_Some (Policy.ValidateContainerAdjustment Api.pluginNamesInOrder
             pv req None).
Proof.
  intros rule pv pod req.
  apply (proj2 (policy_refuses_iff Api.pluginNamesInOrder pv req pod None
                  eq_refl)).
  right. split; [reflexivity |]. exists "test-plugin".
  split; [by repeat constructor |].
  intros (r & _ & _ & _ & s & a & Hs & _). discriminate Hs.
Defined.

(** ** The validation manager and the plugin *)

Section ManagerVerdict.

Variable pluginNames : Api.ValidateContainerAdjustmentRequest -> list string.

Lemma NewValidationManager_validators (config : Config.ValidationConfig)
    (vm : Manager.ValidationManager) :
  Manager.NewValidationManager config = Ok vm ->
  Extended.defaultValidator (Manager.extendedValidator vm) = None
  /\ Extended.policyValidator (Manager.extendedValidator vm)
     = Policy.NewPolicyBasedValidator
         (match Config.Policy config with
          | Some p => p
          | None => Manager.zeroPolicy
          end)
         (Config.Restrictions config).
Proof.
  unfold Manager.NewValidationManager. intros [= <-]. simpl.
  by destruct (Config.EnableDefaultValidator config).
Qed.

Lemma manager_refuses_iff (config : Config.ValidationConfig)
    (vm : Manager.ValidationManager)
    (req : Api.ValidateContainerAdjustmentRequest) (pod : Api.PodSandbox)
    (subject : option Policy.PolicySubject) :
  Manager.NewValidationManager config = Ok vm ->
  Api.Pod req = Some pod ->
  is_Some (Manager.ValidateContainerAdjustment pluginNames vm req subject)
  <-> is_Some (Policy.ValidateContainerAdjustment pluginNames
                 (Extended.policyValidator (Manager.extendedValidator vm))
                 req (Some (Shape.managerContext subject pod))).
Proof.
  intros [Hdef _]%NewValidationManager_validators Hpod.
  unfold Manager.ValidateContainerAdjustment,
    Extended.ValidateContainerAdjustment.
  rewrite Hdef. unfold Api.GetPod at 1. rewrite Hpod.
  rewrite is_Some_wrap. split; [| by left].
  intros [H | [? [=]]]. exact H.
Qed.

(** X13: the validation manager never runs a default validator: two
    configurations with the same policy and the same restrictions give
    managers that answer every request alike, whatever their
    [EnableDefaultValidator] and [DefaultValidatorConfig]; and building
    the manager never fails. *)
Theorem manager_ignores_default_validator_settings
    (c1 c2 : Config.ValidationConfig) :
  Config.Policy c1 = Config.Policy c2 ->
  Config.Restrictions c1 = Config.Restrictions c2 ->
  exists vm1 vm2,
    Manager.NewValidationManager c1 = Ok vm1
    /\ Manager.NewValidationManager c2 = Ok vm2
    /\ forall req subject,
        Manager.ValidateContainerAdjustment pluginNames vm1 req subject
        = Manager.ValidateContainerAdjustment pluginNames vm2 req subject.
Proof.
  intros Hp Hr. eexists _, _. split; [reflexivity |].
  split; [reflexivity |]. intros req subject.
  unfold Manager.ValidateContainerAdjustment,
    Extended.ValidateContainerAdjustment. simpl.
  rewrite Hp, Hr.
  by destruct (Config.EnableDefaultValidator c1),
    (Config.EnableDefaultValidator c2).
Qed.

(** X14: a request that names no plugin passes the whole pipeline as soon
    as it has a pod: neither the restrictions nor the policy, not even
    under [DefaultDeny], are consulted for it. *)
Theorem manager_passes_request_without_plugins
    (config : Config.ValidationConfig) (vm : Manager.ValidationManager)
    (req : Api.ValidateContainerAdjustmentRequest) (pod : Api.PodSandbox)
    (subject : option Policy.PolicySubject) :
  Manager.NewValidationManager config = Ok vm ->
  Api.Pod req = Some pod ->
  pluginNames req = [] ->
  Manager.ValidateContainerAdjustment pluginNames vm req subject = None.
Proof.
  intros Hvm Hpod Hnames. apply not_is_Some_None.
  rewrite (manager_refuses_iff config vm req pod subject Hvm Hpod).
  rewrite (policy_refuses_iff pluginNames _ req pod _ Hpod).
  intros [(rv & _ & Hr) | (_ & name & Hin & _)].
  - apply (restrictions_refuse_iff pluginNames rv req pod Hpod) in Hr
      as (name & Hin & _).
    rewrite Hnames in Hin. by apply elem_of_nil in Hin.
  - rewrite Hnames in Hin. by apply elem_of_nil in Hin.
Qed.

(** X15: without a restrictions configuration and without [DefaultDeny]
    (a policy that does not set it, or no policy at all) the manager
    passes every request that has a pod, whatever the rules, the plugins
    and the subject. *)
Theorem manager_permissive_policy_passes_everything
    (config : Config.ValidationConfig) (vm : Manager.ValidationManager)
    (req : Api.ValidateContainerAdjustmentRequest) (pod : Api.PodSandbox)
    (subject : option Policy.PolicySubject) :
  Manager.NewValidationManager config = Ok vm ->
  Config.Restrictions config = None ->
  (forall p, Config.Policy config = Some p -> Policy.DefaultDeny p = false) ->
  Api.Pod req = Some pod ->
  Manager.ValidateContainerAdjustment pluginNames vm req subject = None.
Proof.
  intros Hvm Hr Hperm Hpod. apply not_is_Some_None.
  rewrite (manager_refuses_iff config vm req pod subject Hvm Hpod).
  rewrite (policy_refuses_iff pluginNames _ req pod _ Hpod).
  apply NewValidationManager_validators in Hvm as [_ ->]. rewrite Hr.
  simpl. intros [(rv & [=] & _) | (Hd & _)].
  destruct (Config.Policy config) as [p|].
  - rewrite (Hperm p eq_refl) in Hd. discriminate.
  - discriminate.
Qed.

(** X16: under [DefaultDeny] a request without subject is always refused
    when it names at least one plugin: with or without a pod, whatever
    the rules and the restrictions. *)
Theorem manager_default_deny_refuses_missing_subject
    (config : Config.ValidationConfig) (vm : Manager.ValidationManager)
    (p : Policy.NRIValidationPolicySpec)
    (req : Api.ValidateContainerAdjustmentRequest) :
  Manager.NewValidationManager config = Ok vm ->
  Config.Policy config = Some p ->
  Policy.DefaultDeny p = true ->
  pluginNames req <> [] ->
  is_Some (Manager.ValidateContainerAdjustment pluginNames vm req None).
Proof.
  intros Hvm Hp Hd Hnames.
  destruct (Api.Pod req) as [pod|] eqn:Hpod.
  - rewrite (manager_refuses_iff config vm req pod None Hvm Hpod).
    rewrite (policy_refuses_iff pluginNames _ req pod _ Hpod).
    apply NewValidationManager_validators in Hvm as [_ ->]. rewrite Hp.
    right. split; [exact Hd |].
    destruct (pluginNames req) as [|name rest]; [done |].
    exists name. split; [left |].
    intros (r & _ & _ & _ & s & a & [=] & _).
  - apply NewValidationManager_validators in Hvm as [Hdef _].
    unfold Manager.ValidateContainerAdjustment,
      Extended.ValidateContainerAdjustment,
      Policy.ValidateContainerAdjustment, Api.GetPod.
    rewrite Hdef, Hpod. eauto.
Qed.

End ManagerVerdict.

Lemma manager_ignores_default_validator_settings_witness :
  let policy :=
    {| Policy.DefaultDeny := true;
       Policy.Rules :=
         [{| Policy.Namespaces := ["dev-*"]; Policy.Plugins := ["*"];
             Policy.Subjects :=
               [{| Policy.Kind := "User"; Policy.Name := "developer" |}] |}]
    |} in
  let c1 :=
    {| Config.Policy := Some policy; Config.Restrictions := None;
       Config.EnableDefaultValidator := true;
       Config.DefaultValidatorConfig := Some ∅ |} in
  let c2 :=
    {| Config.Policy := Some policy; Config.Restrictions := None;
       Config.EnableDefaultValidator := false;
       Config.DefaultValidatorConfig := None |} in
  exists vm1 vm2,
    Manager.NewValidationManager c1 = Ok vm1
    /\ Manager.NewValidationManager c2 = Ok vm2
    /\ forall req subject,
        Manager.ValidateContainerAdjustment Api.pluginNamesInOrder
          vm1 req subject
        = Manager.ValidateContainerAdjustment Api.pluginNamesInOrder
            vm2 req subject.
Proof.
  intros policy c1 c2.
  exact (manager_ignores_default_validator_settings Api.pluginNamesInOrder
           c1 c2 eq_refl eq_refl).
Defined.

Lemma manager_passes_request_without_plugins_witness :
  let config :=
    {| Config.Policy :=
         Some {| Policy.DefaultDeny := true; Policy.Rules := [] |};
       Config.Restrictions :=
         Some {| Restrictions.DefaultAction := Restrictions.RestrictionDeny;
                 Restrictions.GlobalRestrictions :=
                   [{| Restrictions.Action := Restrictions.RestrictionDeny;
                       Restrictions.Capabilities :=
                         [Restrictions.MutationNamespaces] |}];
                 Restrictions.PluginRestrictions := [];
                 Restrictions.GlobalPodRestrictions := [] |};
       Config.EnableDefaultValidator := false;
       Config.DefaultValidatorConfig := None |} in
  let pod :=
    {| Api.Name := "test-pod"; Api.Namespace := "test"; Api.Labels := ∅ |} in
  let adjust :=
    {| Api.Annotations := ∅; Api.Mounts := []; Api.Args := [];
       Api.Env := []; Api.Hooks_ := None; Api.Rlimits := [];
       Api.Linux :=
         Some {| Api.Devices := []; Api.Resources := None;
                 Api.Namespaces :=
                   [{| Api.Type_ := "pid";
                       Api.Namespace_Path := "/proc/1/ns/pid" |}];
                 Api.SeccompPolicy := None |} |} in
  let req :=
    {| Api.Pod := Some pod; Api.Adjust := Some adjust;
       Api.Plugins := [] |} in
  exists vm,
    Manager.NewValidationManager config = Ok vm
    /\ Manager.ValidateContainerAdjustment Api.pluginNamesInOrder
         vm req None = None.
Proof.
  intros config pod adjust req. eexists. split; [reflexivity |].
  exact (manager_passes_request_without_plugins Api.pluginNamesInOrder
           config _ req pod None eq_refl eq_refl eq_refl).
Defined.

Lemma manager_permissive_policy_passes_everything_witness :
  let policy :=
    {| Policy.DefaultDeny := false;
       Policy.Rules :=
         [{| Policy.Namespaces := ["production"];
             Policy.Plugins := ["cpu-manager"];
             Policy.Subjects :=
               [{| Policy.Kind := "Group";
                   Policy.Name := "platform-team" |}] |}] |} in
  let config :=
    {| Config.Policy := Some policy; Config.Restrictions := None;
       Config.EnableDefaultValidator := false;
       Config.DefaultValidatorConfig := None |} in
  let pod :=
    {| Api.Name := "db"; Api.Namespace := "production";
       Api.Labels := ∅ |} in
  let req :=
    {| Api.Pod := Some pod; Api.Adjust := None;
       Api.Plugins := [{| Api.Plugin_Name := "untrusted-plugin";
                          Api.Plugin_Index := "00" |}] |} in
  let subject := Some {| Policy.Kind := "User"; Policy.Name := "intruder" |} in
  exists vm,
    Manager.NewValidationManager config = Ok vm
    /\ Manager.ValidateContainerAdjustment Api.pluginNamesInOrder
         vm req subject = None.
Proof.
  intros policy config pod req subject. eexists. split; [reflexivity |].
  refine (manager_permissive_policy_passes_everything Api.pluginNamesInOrder
            config _ req pod subject eq_refl eq_refl _ eq_refl).
  intros p Hp. injection Hp as <-. reflexivity.
Defined.

Lemma manager_default_deny_refuses_missing_subject_witness :
  let policy :=
    {| Policy.DefaultDeny := true;
       Policy.Rules :=
         [{| Policy.Namespaces := ["*"]; Policy.Plugins := ["*"];
             Policy.Subjects :=
               [{| Policy.Kind := "User"; Policy.Name := "developer" |}] |}]
    |} in
  let config :=
    {| Config.Policy := Some policy; Config.Restrictions := None;
       Config.EnableDefaultValidator := false;
       Config.DefaultValidatorConfig := None |} in
  let req :=
    {| Api.Pod := Some {| Api.Name := "test-pod"; Api.Namespace := "dev";
                          Api.Labels := ∅ |};
       Api.Adjust := None;
       Api.Plugins := [{| Api.Plugin_Name := "test-plugin";
                          Api.Plugin_Index := "00" |}] |} in
  exists vm,
    Manager.NewValidationManager config = Ok vm
    /\ is_Some (Manager.ValidateContainerAdjustment Api.pluginNamesInOrder
                  vm req None).
Proof.
  intros policy config req. eexists. split; [reflexivity |].
  refine (manager_default_deny_refuses_missing_subject Api.pluginNamesInOrder
            config _ policy req eq_refl eq_refl eq_refl _).
  discriminate.
Defined.

Section PluginSubject.

Variable GetAnnotations : option Api.PodSandbox -> gmap string string.

(** X17: the subject that the plugin extracts from a pod always has one of
    the three kinds that configuration validation accepts.  A user
    annotation wins over a group annotation, which wins over the service
    account; a pod with none of the three (and so a nil pod) is the
    service account ["default"]. *)
Theorem extractSubjectFromPod_priority (pod : option Api.PodSandbox) :
  let annotations := GetAnnotations pod in
  let subject := Plugin.extractSubjectFromPod GetAnnotations pod in
  Policy.Kind subject ∈ Config.validKinds
  /\ (forall user, annotations !! "nri.io/user" = Some user ->
        subject = {| Policy.Kind := "User"; Policy.Name := user |})
  /\ (forall group,
        annotations !! "nri.io/user" = None ->
        annotations !! "nri.io/group" = Some group ->
        subject = {| Policy.Kind := "Group"; Policy.Name := group |})
  /\ (annotations !! "nri.io/user" = None ->
      annotations !! "nri.io/group" = None ->
      subject
      = {| Policy.Kind := "ServiceAccount";
           Policy.Name :=
             default "default" (annotations !! "nri.io/service-account") |}).
Proof.
  intros annotations subject. subst annotations subject.
  unfold Plugin.extractSubjectFromPod, Config.validKinds.
  destruct (GetAnnotations pod !! "nri.io/user") as [user|];
    [| destruct (GetAnnotations pod !! "nri.io/group") as [group|];
       [| destruct (GetAnnotations pod !! "nri.io/service-account")]];
    simpl; repeat split; try done; try (by repeat constructor);
    try (by intros ? [= <-]); by intros ? ? [= <-].
Qed.

End PluginSubject.

Lemma extractSubjectFromPod_priority_witness :
  let GetAnnotations := fun _ : option Api.PodSandbox =>
    ({[ "nri.io/group" := "platform-team";
        "nri.io/service-account" := "runner" ]} : gmap string string) in
  Plugin.extractSubjectFromPod GetAnnotations None
  = {| Policy.Kind := "Group"; Policy.Name := "platform-team" |}.
Proof.
  intros GetAnnotations.
  apply (proj1 (proj2 (proj2
           (extractSubjectFromPod_priority GetAnnotations None)))).
  - by vm_compute.
  - by vm_compute.
Defined.

(** ** Configuration: structural validation of the restrictions *)

Section RestrictionsValidation2.
Import Config.

Lemma forEachIndexed_None {A : Type} (body : nat -> A -> option error)
    (P : A -> Prop) (i : nat) (l : list A) :
  (forall k x, body k x = None <-> P x) ->
  forEachIndexed body i l = None <-> Forall P l.
Proof.
  intros Hbody. revert i.
  induction l as [|x l IH]; intros i; cbn [forEachIndexed].
  - split; [constructor | done].
  - rewrite Forall_cons, <- (Hbody i x), <- (IH (S i)).
    destruct (body i x); [split; [done | by intros [? _]] | tauto].
Qed.

Lemma wrap_None (a : option error) (wrap : error -> error) :
  match a with Some err => Some (wrap err) | None => None end = None
  <-> a = None.
Proof. by destruct a. Qed.

(** X18: [validateMutationRestriction] accepts a restriction iff its
    action is ["allow"] or ["deny"], its capability list is not empty, and
    every capability is one of the fifteen known names. *)
Theorem validateMutationRestriction_accepts_iff
    (restriction : Restrictions.MutationRestriction) :
  validateMutationRestriction restriction = None
  <-> Shape.mutationRestrictionValid restriction.
Proof.
  unfold validateMutationRestriction, Shape.mutationRestrictionValid.
  destruct (String.eqb_spec (Restrictions.Action restriction)
                            Restrictions.RestrictionAllow) as [Ha|Ha];
    destruct (String.eqb_spec (Restrictions.Action restriction)
                              Restrictions.RestrictionDeny) as [Hd|Hd];
    cbn [negb andb].
  4: { split; [done | by intros [[? | ?] _]]. }
  all: destruct (length (Restrictions.Capabilities restriction) =? 0)%nat
         eqn:Hlen;
    [ apply length_eqb_0 in Hlen; split; [done | by intros (_ & ? & _)] |].
  all: assert (Restrictions.Capabilities restriction <> []) as Hne
         by (intros Hnil; apply length_eqb_0 in Hnil; congruence).
  all: rewrite forEach_None, Forall_forall.
  all: split;
    [ intros Hall; split; [tauto |]; split; [done |]; intros cap Hcap;
      specialize (Hall cap Hcap);
      apply slicesContains_true; unfold slicesContains;
      by destruct (existsb (String.eqb cap) validCapabilities)
    | intros (_ & _ & Hall) cap Hcap; specialize (Hall cap Hcap);
      apply slicesContains_true in Hall; unfold slicesContains in Hall;
      by rewrite Hall ].
Qed.

(** X19: [validateRestrictions] accepts a restrictions configuration iff
    its default action is empty, ["allow"] or ["deny"], every global
    mutation restriction is valid, and every plugin restriction has a
    non-empty pattern and valid mutation restrictions.  Pod restrictions,
    global or of a plugin, are not looked at. *)
Theorem validateRestrictions_accepts_iff
    (restrictions : Restrictions.RestrictionsConfig) :
  validateRestrictions restrictions = None
  <-> Shape.restrictionsValid restrictions.
Proof.
  unfold validateRestrictions, Shape.restrictionsValid.
  assert (forall l,
    forEachIndexed
      (fun i restriction =>
         match validateMutationRestriction restriction with
         | Some err => Some ("global restriction " +:+ itoa i +:+ ": " +:+ err)
         | None => None
         end) 0 l = None
    <-> Forall Shape.mutationRestrictionValid l) as Hglobal.
  { intros l. apply forEachIndexed_None. intros k x.
    by rewrite wrap_None, validateMutationRestriction_accepts_iff. }
  assert (forall l,
    forEachIndexed
      (fun i pluginRestriction =>
         if String.eqb (Restrictions.PluginPattern pluginRestriction) ""
         then Some ("plugin restriction " +:+ itoa i
                    +:+ ": pluginPattern cannot be empty")
         else
           forEachIndexed
             (fun j mutationRestriction =>
                match validateMutationRestriction mutationRestriction with
                | Some err =>
                    Some ("plugin restriction " +:+ itoa i
                          +:+ ", mutation restriction " +:+ itoa j
                          +:+ ": " +:+ err)
                | None => None
                end)
             0 (Restrictions.MutationRestrictions pluginRestriction)) 0 l
    = None
    <-> Forall Shape.pluginRestrictionValid l) as Hplugin.
  { intros l. apply forEachIndexed_None. intros k pr.
    unfold Shape.pluginRestrictionValid.
    destruct (String.eqb_spec (Restrictions.PluginPattern pr) "") as [He|He];
      [split; [done | by intros [? _]] |].
    rewrite (forEachIndexed_None _ Shape.mutationRestrictionValid).
    - tauto.
    - intros j x.
      by rewrite wrap_None, validateMutationRestriction_accepts_iff. }
  destruct (String.eqb_spec (Restrictions.DefaultAction restrictions) "")
    as [H0|H0];
    destruct (String.eqb_spec (Restrictions.DefaultAction restrictions)
                              Restrictions.RestrictionAllow) as [Ha|Ha];
    destruct (String.eqb_spec (Restrictions.DefaultAction restrictions)
                              Restrictions.RestrictionDeny) as [Hd|Hd];
    cbn [negb andb].
  8: { split; [done | by intros [[? | [? | ?]] _]]. }
  all: destruct (forEachIndexed _ 0
                   (Restrictions.GlobalRestrictions restrictions))
         as [e|] eqn:Hg;
    [ split; [done |]; intros (_ & Hv & _); apply Hglobal in Hv; congruence
    | apply Hglobal in Hg; rewrite Hplugin; tauto ].
Qed.

(** X20: [ValidateConfig] refuses the nil configuration, and accepts a
    configuration iff every rule of its policy, when it has one, is
    structurally valid and its restrictions, when it has some, are
    structurally valid. *)
Theorem ValidateConfig_accepts_iff :
  ValidateConfig None = Some "config cannot be nil"
  /\ forall config : ValidationConfig,
      ValidateConfig (Some config) = None
      <-> (forall policy, Policy config = Some policy ->
             Forall Spec.ruleValid (Policy.Rules policy))
          /\ (forall restrictions, Restrictions config = Some restrictions ->
                Shape.restrictionsValid restrictions).
Proof.
  split; [done |]. intros config. unfold ValidateConfig.
  destruct (Policy config) as [policy|];
    destruct (Restrictions config) as [restrictions|].
  - unfold validatePolicy.
    destruct (validateRules 0 (Policy.Rules policy)) as [e|] eqn:Hp.
    + split; [done |]. intros [Hv _].
      specialize (Hv policy eq_refl). apply (validateRules_None 0) in Hv.
      congruence.
    + apply validateRules_None in Hp.
      rewrite wrap_None, validateRestrictions_accepts_iff. split.
      * intros Hr. split; [by intros ? [= <-] | by intros ? [= <-]].
      * intros [_ Hr]. by apply Hr.
  - unfold validatePolicy.
    destruct (validateRules 0 (Policy.Rules policy)) as [e|] eqn:Hp.
    + split; [done |]. intros [Hv _].
      specialize (Hv policy eq_refl). apply (validateRules_None 0) in Hv.
      congruence.
    + apply validateRules_None in Hp. split; [| done].
      intros _. split; [by intros ? [= <-] | done].
  - rewrite wrap_None, validateRestrictions_accepts_iff. split.
    + intros Hr. split; [done | by intros ? [= <-]].
    + intros [_ Hr]. by apply Hr.
  - split; [| done]. intros _. by split.
Qed.

End RestrictionsValidation2.

(** ** Configuration: loading a directory *)

Section DirectoryLoad.
Import Config.

Variable ReadFile : string -> result string.
Variable Unmarshal : string -> result ValidationConfig.
Variable Glob : string -> result (list string).
Variable Join : string -> string -> string.

Local Abbreviation loadsAs := (Spec.loadsAs ReadFile Unmarshal).
Local Abbreviation lists := (Spec.lists Glob Join).
Local Abbreviation load := (LoadConfigFromDir ReadFile Unmarshal Glob Join).

Lemma LoadConfigFromDir_mergeFiles (dir : string) (files : list string) :
  lists dir files ->
  load dir = mergeFiles ReadFile Unmarshal files zeroConfig.
Proof.
  intros [Hne Hglob]. unfold LoadConfigFromDir.
  assert ((length files =? 0)%nat = false) as Hlen
    by (apply Nat.eqb_neq; by destruct files).
  destruct Hglob as [-> | [-> ->]]; simpl; by rewrite ?Hlen.
Qed.

Lemma mergeFiles_Ok (files : list string)
    (mergedConfig merged : ValidationConfig) :
  mergeFiles ReadFile Unmarshal files mergedConfig = Ok merged ->
  exists configs,
    Forall2 loadsAs files configs
    /\ merged = fold_left mergeInto configs mergedConfig.
Proof.
  revert mergedConfig.
  induction files as [|file files IH]; intros acc; cbn [mergeFiles].
  - intros [= <-]. exists []. split; [constructor | done].
  - destruct (LoadConfigFromFile ReadFile Unmarshal file) as [config|err]
      eqn:Hload; [| done].
    intros (configs & Hall & ->)%IH. exists (config :: configs).
    split; [by constructor | done].
Qed.

Lemma mergeFiles_Err (loaded : list string) (configs : list ValidationConfig)
    (bad : string) (rest : list string) (err : error)
    (mergedConfig : ValidationConfig) :
  Forall2 loadsAs loaded configs ->
  LoadConfigFromFile ReadFile Unmarshal bad = Err err ->
  mergeFiles ReadFile Unmarshal (loaded ++ bad :: rest)%list mergedConfig
  = Err ("failed to load config from " +:+ bad +:+ ": " +:+ err).
Proof.
  intros Hall Hbad. revert mergedConfig.
  induction Hall as [|file config files configs Hload _ IH]; intros acc.
  - cbn [app mergeFiles]. by rewrite Hbad.
  - cbn [app mergeFiles]. unfold Spec.loadsAs in Hload. by rewrite Hload.
Qed.

(** X21: [LoadConfigFromDir] succeeds iff the directory lists at least one
    file ([*.yaml], or [*.yml] when there is no [*.yaml]) and every listed
    file loads; the configuration it returns is then the left-to-right
    merge of the files into the zero configuration. *)
Theorem LoadConfigFromDir_succeeds_iff (dir : string)
    (merged : ValidationConfig) :
  load dir = Ok merged
  <-> exists files configs,
      lists dir files
      /\ Forall2 loadsAs files configs
      /\ merged = fold_left mergeInto configs zeroConfig.
Proof.
  split.
  - unfold LoadConfigFromDir.
    destruct (Glob (Join dir "*.yaml")) as [files|err] eqn:Hyaml; [| done].
    destruct files as [|file files].
    + simpl.
      destruct (Glob (Join dir "*.yml")) as [files|err] eqn:Hyml; [| done].
      destruct files as [|file files]; [done |].
      intros (configs & Hall & ->)%mergeFiles_Ok.
      exists (file :: files), configs.
      split; [| done]. split; [done | by right].
    + intros (configs & Hall & ->)%mergeFiles_Ok.
      exists (file :: files), configs.
      split; [| done]. split; [done | by left].
  - intros (files & configs & Hlist & Hall & ->).
    rewrite (LoadConfigFromDir_mergeFiles dir files Hlist).
    by apply mergeFiles_fold.
Qed.

(** X22: the first listed file that fails to load aborts the directory
    load: the error names this file and carries its error, and the files
    after it play no part. *)
Theorem LoadConfigFromDir_first_failure (dir : string)
    (loaded : list string) (configs : list ValidationConfig)
    (bad : string) (rest : list string) (err : error) :
  lists dir (loaded ++ bad :: rest)%list ->
  Forall2 loadsAs loaded configs ->
  LoadConfigFromFile ReadFile Unmarshal bad = Err err ->
  load dir = Err ("failed to load config from " +:+ bad +:+ ": " +:+ err).
Proof.
  intros Hlist Hall Hbad.
  rewrite (LoadConfigFromDir_mergeFiles dir _ Hlist).
  by eapply mergeFiles_Err.
Qed.

(** X23: when the directory has a [*.yaml] file, its [*.yml] files are
    never listed: the result is the same under any other answer of the
    file system to the [*.yml] pattern. *)
Theorem LoadConfigFromDir_yaml_hides_yml (dir : string)
    (files : list string) (Glob' : string -> result (list string)) :
  Glob (Join dir "*.yaml") = Ok files ->
  files <> [] ->
  Glob' (Join dir "*.yaml") = Ok files ->
  load dir = LoadConfigFromDir ReadFile Unmarshal Glob' Join dir.
Proof.
  intros Hg Hne Hg'. unfold LoadConfigFromDir. rewrite Hg, Hg'.
  by destruct files.
Qed.

Lemma fold_mergeInto_EnableDefaultValidator
    (configs : list ValidationConfig) (mergedConfig : ValidationConfig) :
  EnableDefaultValidator (fold_left mergeInto configs mergedConfig)
  = EnableDefaultValidator mergedConfig
    || existsb EnableDefaultValidator configs.
Proof.
  revert mergedConfig.
  induction configs as [|c configs IH]; intros acc; simpl.
  - by rewrite orb_false_r.
  - rewrite IH. simpl.
    by destruct (EnableDefaultValidator c), (EnableDefaultValidator acc).
Qed.

(** X24: [EnableDefaultValidator] can be switched on by any file of the
    directory and off by none: it is set in the merged configuration iff
    some file sets it. *)
Theorem LoadConfigFromDir_EnableDefaultValidator (dir : string)
    (files : list string) (configs : list ValidationConfig) :
  lists dir files ->
  Forall2 loadsAs files configs ->
  exists merged,
    load dir = Ok merged
    /\ (EnableDefaultValidator merged = true
        <-> exists config,
            config ∈ configs /\ EnableDefaultValidator config = true).
Proof.
  intros Hlist Hall. eexists. split.
  - rewrite (LoadConfigFromDir_mergeFiles dir files Hlist).
    by apply mergeFiles_fold.
  - by rewrite fold_mergeInto_EnableDefaultValidator, orb_false_l,
      existsb_elem_of.
Qed.

End DirectoryLoad.

(** X25: the order of two files does not matter when they do not set the
    same optional field (policy, restrictions, default validator
    options): merging them in either order gives the same
    configuration. *)
Theorem mergeInto_commutes_on_disjoint_fields
    (mergedConfig a b : Config.ValidationConfig) :
  Shape.setDisjointFields a b ->
  Config.mergeInto (Config.mergeInto mergedConfig a) b
  = Config.mergeInto (Config.mergeInto mergedConfig b) a.
Proof.
  destruct a as [pa ra ea da], b as [pb rb eb db].
  unfold Shape.setDisjointFields, Config.mergeInto. simpl.
  intros (Hp & Hr & Hd). f_equal.
  - destruct Hp as [-> | ->]; [by destruct pb | by destruct pa].
  - destruct Hr as [-> | ->]; [by destruct rb | by destruct ra].
  - by destruct ea, eb.
  - destruct Hd as [-> | ->]; [by destruct db | by destruct da].
Qed.

Lemma mergeInto_commutes_on_disjoint_fields_witness :
  let a :=
    {| Config.Policy :=
         Some {| Policy.DefaultDeny := true; Policy.Rules := [] |};
       Config.Restrictions := None;
       Config.EnableDefaultValidator := false;
       Config.DefaultValidatorConfig := None |} in
  let b :=
    {| Config.Policy := None;
       Config.Restrictions :=
         Some {| Restrictions.DefaultAction := Restrictions.RestrictionAllow;
                 Restrictions.GlobalRestrictions := [];
                 Restrictions.PluginRestrictions := [];
                 Restrictions.GlobalPodRestrictions := [] |};
       Config.EnableDefaultValidator := true;
       Config.DefaultValidatorConfig := None |} in
  Config.mergeInto (Config.mergeInto Config.zeroConfig a) b
  = Config.mergeInto (Config.mergeInto Config.zeroConfig b) a.
Proof.
  intros a b.
  apply (mergeInto_commutes_on_disjoint_fields Config.zeroConfig a b).
  unfold Shape.setDisjointFields. simpl.
  split; [right; reflexivity |]. split; [left; reflexivity |].
  left; reflexivity.
Defined.

Lemma LoadConfigFromDir_first_failure_witness :
  let ReadFile := fun path : string => (Ok path : result string) in
  let good :=
    {| Config.Policy := None; Config.Restrictions := None;
       Config.EnableDefaultValidator := true;
       Config.DefaultValidatorConfig := None |} in
  let Unmarshal := fun data : string =>
    if String.eqb data "/etc/nri/20-b.yaml"
    then (Err "yaml: line 1: did not find expected key"
          : result Config.ValidationConfig)
    else Ok good in
  let Glob := fun pattern : string =>
    if String.eqb pattern "/etc/nri/*.yaml"
    then (Ok ["/etc/nri/10-a.yaml"; "/etc/nri/20-b.yaml";
              "/etc/nri/30-c.yaml"] : result (list string))
    else Ok [] in
  let Join := fun dir file : string => dir +:+ "/" +:+ file in
  Config.LoadConfigFromDir ReadFile Unmarshal Glob Join "/etc/nri"
  = Err ("failed to load config from /etc/nri/20-b.yaml: "
         +:+ "failed to parse config file /etc/nri/20-b.yaml: "
         +:+ "yaml: line 1: did not find expected key").
Proof.
  intros ReadFile good Unmarshal Glob Join.
  apply (LoadConfigFromDir_first_failure ReadFile Unmarshal Glob Join
           "/etc/nri" ["/etc/nri/10-a.yaml"] [good] "/etc/nri/20-b.yaml"
           ["/etc/nri/30-c.yaml"]).
  - split; [discriminate | left; reflexivity].
  - repeat constructor.
  - reflexivity.
Defined.

Lemma LoadConfigFromDir_yaml_hides_yml_witness :
  let ReadFile := fun path : string => (Ok path : result string) in
  let Unmarshal := fun data : string =>
    (Ok Config.zeroConfig : result Config.ValidationConfig) in
  let Glob := fun pattern : string =>
    if String.eqb pattern "/etc/nri/*.yaml"
    then (Ok ["/etc/nri/10-a.yaml"] : result (list string))
    else Ok ["/etc/nri/old.yml"] in
  let Glob' := fun pattern : string =>
    if String.eqb pattern "/etc/nri/*.yaml"
    then (Ok ["/etc/nri/10-a.yaml"] : result (list string))
    else Err "permission denied" in
  let Join := fun dir file : string => dir +:+ "/" +:+ file in
  Config.LoadConfigFromDir ReadFile Unmarshal Glob Join "/etc/nri"
  = Config.LoadConfigFromDir ReadFile Unmarshal Glob' Join "/etc/nri".
Proof.
  intros ReadFile Unmarshal Glob Glob' Join.
  apply (LoadConfigFromDir_yaml_hides_yml ReadFile Unmarshal Glob Join
           "/etc/nri" ["/etc/nri/10-a.yaml"] Glob').
  - reflexivity.
  - discriminate.
  - reflexivity.
Defined.

Lemma LoadConfigFromDir_EnableDefaultValidator_witness :
  let ReadFile := fun path : string => (Ok path : result string) in
  let enabled :=
    {| Config.Policy := None; Config.Restrictions := None;
       Config.EnableDefaultValidator := true;
       Config.DefaultValidatorConfig := None |} in
  let Unmarshal := fun data : string =>
    if String.eqb data "/etc/nri/10-a.yaml"
    then (Ok enabled : result Config.ValidationConfig)
    else Ok Config.zeroConfig in
  let Glob := fun pattern : string =>
    if String.eqb pattern "/etc/nri/*.yaml"
    then (Ok ["/etc/nri/10-a.yaml"; "/etc/nri/20-b.yaml"]
          : result (list string))
    else Ok [] in
  let Join := fun dir file : string => dir +:+ "/" +:+ file in
  exists merged,
    Config.LoadConfigFromDir ReadFile Unmarshal Glob Join "/etc/nri"
    = Ok merged
    /\ (Config.EnableDefaultValidator merged = true
        <-> exists config,
            config ∈ [enabled; Config.zeroConfig]
            /\ Config.EnableDefaultValidator config = true).
Proof.
  intros ReadFile enabled Unmarshal Glob Join.
  apply (LoadConfigFromDir_EnableDefaultValidator ReadFile Unmarshal
           Glob Join "/etc/nri"
           ["/etc/nri/10-a.yaml"; "/etc/nri/20-b.yaml"]
           [enabled; Config.zeroConfig]).
  - split; [discriminate | left; reflexivity].
  - repeat constructor.
Defined.

(** ** Pattern matcher: literal patterns *)

Section LiteralPatterns.

Lemma Contains_middle (pre x post : string) :
  x <> "" -> GoStrings.Contains (pre +:+ x +:+ post) x = true.
Proof.
  intros Hx. apply (Contains_substring _ _ (String.length pre)); [done |].
  induction pre as [|a pre IH].
  - exact (substring_append_l x post).
  - rewrite append_cons. exact IH.
Qed.

(** X26: every pattern matches itself as a value, for both matchers: a
    name is always selected by the pattern spelt like it, stars
    included. *)
Theorem globMatch_matches_itself (pattern : string) :
  Restrictions.globMatch pattern pattern = true
  /\ Policy.globMatch pattern pattern = true.
Proof.
  assert (Restrictions.globMatch pattern pattern = true) as H
    by (apply globMatch_prefix_first; by repeat right).
  split; [exact H | by rewrite Policy_globMatch_eq].
Qed.

(** X27: a pattern without ["*"] matches its own text and nothing else,
    for both matchers. *)
Theorem globMatch_star_free_is_equality (pattern str : string) :
  Shape.starFree pattern ->
  (Restrictions.globMatch pattern str = true <-> pattern = str)
  /\ (Policy.globMatch pattern str = true <-> pattern = str).
Proof.
  intros Hfree.
  assert (Restrictions.globMatch pattern str = true <-> pattern = str) as H.
  { rewrite globMatch_prefix_first. split.
    - intros [-> | [(pre & t & -> & _) | [[(suf & t & -> & _) _] | H]]];
        [| | | done].
      + destruct (Hfree "" ""). reflexivity.
      + destruct (Hfree pre ""). reflexivity.
      + destruct (Hfree "" suf). reflexivity.
    - intros ->. by repeat right. }
  split; [exact H | by rewrite Policy_globMatch_eq].
Qed.

Lemma globMatch_star_free_is_equality_witness :
  (Restrictions.globMatch "production" "production-eu" = true
   <-> "production" = "production-eu")
  /\ (Policy.globMatch "production" "production-eu" = true
      <-> "production" = "production-eu").
Proof.
  apply (globMatch_star_free_is_equality "production" "production-eu").
  intros pre post H.
  pose proof (Contains_middle pre "*" post ltac:(discriminate)) as Hc.
  rewrite <- H in Hc. vm_compute in Hc. discriminate Hc.
Defined.

End LiteralPatterns.

(** ** The plugin, end to end *)

Section PluginEndToEnd.

Variable pluginNames : Api.ValidateContainerAdjustmentRequest -> list string.
Variable GetAnnotations : option Api.PodSandbox -> gmap string string.

(** X28: a request without pod is refused by the plugin whatever the
    configuration and the annotations: the subject is still extracted (as
    for a pod without annotations), and the error of the policy engine
    comes back wrapped once by the extended validator and once by the
    plugin. *)
Theorem plugin_refuses_nil_pod (config : Config.ValidationConfig)
    (vm : Manager.ValidationManager)
    (req : Api.ValidateContainerAdjustmentRequest) :
  Manager.NewValidationManager config = Ok vm ->
  Api.Pod req = None ->
  Plugin.ValidateContainerAdjustment pluginNames GetAnnotations vm req
  = Some ("policy validation failed: policy validation failed: "
          +:+ "pod information is required for policy validation").
Proof.
  intros [Hdef _]%NewValidationManager_validators Hpod.
  unfold Plugin.ValidateContainerAdjustment,
    Manager.ValidateContainerAdjustment,
    Extended.ValidateContainerAdjustment,
    Policy.ValidateContainerAdjustment, Api.GetPod.
  by rewrite Hdef, Hpod.
Qed.

End PluginEndToEnd.

Lemma plugin_refuses_nil_pod_witness :
  let config :=
    {| Config.Policy := None; Config.Restrictions := None;
       Config.EnableDefaultValidator := true;
       Config.DefaultValidatorConfig := None |} in
  let req :=
    {| Api.Pod := None; Api.Adjust := None; Api.Plugins := [] |} in
  exists vm,
    Manager.NewValidationManager config = Ok vm
    /\ is_Some (Plugin.ValidateContainerAdjustment Api.pluginNamesInOrder
                  (fun _ => ∅) vm req).
Proof.
  intros config req. eexists. split; [reflexivity |].
  rewrite (plugin_refuses_nil_pod Api.pluginNamesInOrder (fun _ => ∅)
             config _ req eq_refl eq_refl).
  eauto.
Defined.
